(** * NextFitAI backend: the three Lambda handlers and the result formatter

    A shallow embedding of
    - [src/get_analysis/lambda_function.py]     (module [GetAnalysis]),
    - [src/process_analysis/lambda_function.py] (module [ProcessAnalysis]),
    - [src/submit_analysis/lambda_function.py]  (module [SubmitAnalysis]),
    together with the Python primitives they rely on (module [Py]).

    Conventions of the embedding.
    - Text is a [string]; every character of the model is one code point
      of the ASCII range, so [String.length] is Python's [len].
    - Numbers stored in a record are integers ([Z]).
    - A Python [set] of strings is a [gset string].  The order in which the
      interpreter iterates over a set depends on the per-process string
      hash seed, so it is a parameter ([set_iter]) of every function that
      turns a set into a list.
    - The clock, the process environment, the replies and the failures of
      the external services are explicit (record [Env]); the Blob Store,
      the tracking table and the trace of external calls are the state
      ([World]) threaded through the handlers by a state-and-exception
      monad. *)

From Stdlib Require Import ZArith Lia Ascii.
From stdpp Require Import base option list gmap sets strings pretty.

Local Open Scope Z_scope.

(** ** Python primitives *)

Module Py.

(** [str.isspace] on the ASCII range: TAB, LF, VT, FF, CR, FS, GS, RS, US
    and the space.  It is also the class [\s] of [re] on [str] patterns and
    what [str.strip()] and [str.split()] remove. *)
Definition is_space (c : ascii) : bool :=
  let n := nat_of_ascii c in
  ((9 <=? n) && (n <=? 13) || (28 <=? n) && (n <=? 32))%nat.

Definition is_upper (c : ascii) : bool :=
  let n := nat_of_ascii c in ((65 <=? n) && (n <=? 90))%nat.

Definition is_lower (c : ascii) : bool :=
  let n := nat_of_ascii c in ((97 <=? n) && (n <=? 122))%nat.

Definition is_digit (c : ascii) : bool :=
  let n := nat_of_ascii c in ((48 <=? n) && (n <=? 57))%nat.

Definition lower_char (c : ascii) : ascii :=
  if is_upper c then ascii_of_nat (nat_of_ascii c + 32) else c.

(** [s.lower()] *)
Fixpoint lower (s : string) : string :=
  match s with
  | EmptyString => EmptyString
  | String c s' => String (lower_char c) (lower s')
  end.

(** [s.lstrip(chars)], the characters to remove given as a predicate. *)
Fixpoint lstrip (p : ascii -> bool) (s : string) : string :=
  match s with
  | EmptyString => EmptyString
  | String c s' => if p c then lstrip p s' else s
  end.

(** [s.rstrip(chars)] *)
Fixpoint rstrip (p : ascii -> bool) (s : string) : string :=
  match s with
  | EmptyString => EmptyString
  | String c s' =>
      match rstrip p s' with
      | EmptyString => if p c then EmptyString else String c EmptyString
      | r => String c r
      end
  end.

(** [s.strip(chars)] *)
Definition strip_chars (p : ascii -> bool) (s : string) : string :=
  rstrip p (lstrip p s).

(** [s.strip()] *)
Definition strip (s : string) : string := strip_chars is_space s.

(** The double and the single quote, the argument of the second [strip]. *)
Definition is_quote (c : ascii) : bool :=
  let n := nat_of_ascii c in ((n =? 34) || (n =? 39))%nat.

(** [s.split(sep)] for a one-character separator: empty pieces are kept,
    and the result is never the empty list. *)
Fixpoint split_on (sep : ascii) (s : string) : list string :=
  match s with
  | EmptyString => [EmptyString]
  | String c s' =>
      if Ascii.eqb c sep then EmptyString :: split_on sep s'
      else match split_on sep s' with
           | w :: ws => String c w :: ws
           | [] => [String c EmptyString]
           end
  end.

(** [s.split()]: the maximal runs of non-whitespace characters. *)
Fixpoint split_ws_go (cur : string) (s : string) : list string :=
  match s with
  | EmptyString =>
      match cur with EmptyString => [] | _ => [String.rev cur] end
  | String c s' =>
      if is_space c
      then match cur with
           | EmptyString => split_ws_go EmptyString s'
           | _ => String.rev cur :: split_ws_go EmptyString s'
           end
      else split_ws_go (String c cur) s'
  end.

Definition split (s : string) : list string := split_ws_go EmptyString s.

(** [sub in s] *)
Fixpoint contains (sub s : string) : bool :=
  String.prefix sub s ||
  match s with
  | EmptyString => false
  | String _ s' => contains sub s'
  end.

(** [sep.join(l)] *)
Fixpoint join (sep : string) (l : list string) : string :=
  match l with
  | [] => EmptyString
  | [x] => x
  | x :: l' => x +:+ sep +:+ join sep l'
  end.

(** [int(s)] on a string of decimal digits. *)
Definition digit_val (c : ascii) : Z := Z.of_nat (nat_of_ascii c) - 48.

Fixpoint int_go (acc : Z) (s : string) : Z :=
  match s with
  | EmptyString => acc
  | String c s' => int_go (10 * acc + digit_val c) s'
  end.

Definition int (s : string) : Z := int_go 0 s.

(** Truth value of a string. *)
Definition truthy (s : string) : bool :=
  match s with EmptyString => false | _ => true end.

(** *** The fragment of [re] the handlers use

    Every pattern of the source is a sequence of: literal characters, an
    optional literal ([s?]), a greedy repetition of a character class
    ([[a-z]*], [[:\s]+]) and one capturing group that is itself a greedy
    non-empty repetition of a class ([([^.]+)], [(\d+)]). *)

Inductive atom : Type :=
  | Lit (c : ascii)
  | Opt (c : ascii)
  | Star (cls : ascii -> bool)
  | Plus (cls : ascii -> bool)
  | Group (cls : ascii -> bool).

Definition pattern : Type := list atom.

Fixpoint lits (s : string) : pattern :=
  match s with
  | EmptyString => []
  | String c s' => Lit c :: lits s'
  end.

(** Character comparison, under [re.IGNORECASE] when [icase] is set. *)
Definition char_eq (icase : bool) (c d : ascii) : bool :=
  if icase then Ascii.eqb (lower_char c) (lower_char d) else Ascii.eqb c d.

(** Greedy [cls*] followed by the continuation [k]: the longest run is tried
    first, and the engine backs off one character at a time when the
    continuation fails. *)
Fixpoint star {R : Type} (cls : ascii -> bool) (k : string -> option R)
    (s : string) : option R :=
  match s with
  | String c s' =>
      if cls c
      then match star cls k s' with
           | Some r => Some r
           | None => k s
           end
      else k s
  | EmptyString => k s
  end.

(** The same for the capturing group; [acc] holds the characters captured
    so far, most recent first. *)
Fixpoint star_cap {R : Type} (cls : ascii -> bool)
    (k : string -> string -> option R) (acc : string) (s : string)
    : option R :=
  match s with
  | String c s' =>
      if cls c
      then match star_cap cls k (String c acc) s' with
           | Some r => Some r
           | None => k (String.rev acc) s
           end
      else k (String.rev acc) s
  | EmptyString => k (String.rev acc) s
  end.

(** [match_here icase pat cap s]: the pattern matched at the beginning of [s].
    The result is the text of group 1 and what follows the match. *)
Fixpoint match_here (icase : bool) (pat : pattern) (cap : string)
    (s : string) : option (string * string) :=
  match pat with
  | [] => Some (cap, s)
  | Lit c :: pat' =>
      match s with
      | String d s' =>
          if char_eq icase c d then match_here icase pat' cap s' else None
      | EmptyString => None
      end
  | Opt c :: pat' =>
      let skip := match_here icase pat' cap s in
      match s with
      | String d s' =>
          if char_eq icase c d
          then match match_here icase pat' cap s' with
               | Some r => Some r
               | None => skip
               end
          else skip
      | EmptyString => skip
      end
  | Star cls :: pat' => star cls (match_here icase pat' cap) s
  | Plus cls :: pat' =>
      match s with
      | String d s' =>
          if cls d then star cls (match_here icase pat' cap) s' else None
      | EmptyString => None
      end
  | Group cls :: pat' =>
      match s with
      | String d s' =>
          if cls d
          then star_cap cls (fun g rest => match_here icase pat' g rest)
                 (String d EmptyString) s'
          else None
      | EmptyString => None
      end
  end.

(** [re.findall(pat, s)] for a pattern with one group and no empty match:
    the non-overlapping matches from left to right, each reported by the
    text of its group.  [skip] counts the characters still covered by the
    match found last. *)
Fixpoint findall_go (icase : bool) (pat : pattern) (skip : nat) (s : string)
    : list string :=
  match s with
  | EmptyString => []
  | String _ s' =>
      match skip with
      | S n => findall_go icase pat n s'
      | O =>
          match match_here icase pat EmptyString s with
          | Some (g, rest) =>
              g :: findall_go icase pat
                     (String.length s - String.length rest - 1) s'
          | None => findall_go icase pat O s'
          end
      end
  end.

Definition findall (icase : bool) (pat : pattern) (s : string) : list string :=
  findall_go icase pat O s.

(** [re.search(pat, s)] followed by [.group(1)]: the leftmost match. *)
Fixpoint search (icase : bool) (pat : pattern) (s : string) : option string :=
  match match_here icase pat EmptyString s with
  | Some (g, _) => Some g
  | None =>
      match s with
      | EmptyString => None
      | String _ s' => search icase pat s'
      end
  end.

End Py.

(** ** Shared data: the stored analysis result and the tracking record *)

(** The dictionary stored under [analysis_result]; a key may be absent. *)
Record AnalysisResult : Type := mkAnalysisResult {
  ar_match_score : option Z;
  ar_analysis : option string;
  ar_timestamp : option string;
  ar_is_mock : option bool
}.

(** The empty dictionary. *)
Definition empty_result : AnalysisResult :=
  mkAnalysisResult None None None None.

(** An item of the tracking table; a key may be absent. *)
Record Item : Type := mkItem {
  it_status : option string;
  it_timestamp : option string;
  it_resume_s3_path : option string;
  it_jd_s3_path : option string;
  it_processing_timestamp : option string;
  it_completion_timestamp : option string;
  it_error_message : option string;
  it_analysis_result : option AnalysisResult
}.

Definition empty_item : Item :=
  mkItem None None None None None None None None.

(** [d.get(key, default)] *)
Definition get {A : Type} (field : option A) (default : A) : A :=
  match field with Some v => v | None => default end.

(** The interpreter's iteration order over a set is some enumeration of its
    elements, each once. *)
Definition set_order (set_iter : gset string -> list string) : Prop :=
  forall X : gset string, set_iter X ≡ₚ elements X.

(** ** The external services and the effects of a handler *)

(** A JSON document, as passed to [json.dumps]. *)
#[warnings="-register-all"]
Inductive json : Type :=
  | JNull
  | JBool (b : bool)
  | JNum (z : Z)
  | JStr (s : string)
  | JList (l : list json)
  | JObj (fields : list (string * json)).

(** The dictionary a handler returns. *)
Record Response : Type := mkResponse {
  statusCode : Z;
  headers : list (string * string);
  body : json
}.

Definition json_opt_str (o : option string) : json :=
  match o with Some s => JStr s | None => JNull end.

(** [json.dumps] of a stored analysis result: the keys present. *)
Definition result_json (r : AnalysisResult) : json :=
  JObj (omap id
    [ (fun z => ("match_score", JNum z)) <$> ar_match_score r;
      (fun s => ("analysis", JStr s)) <$> ar_analysis r;
      (fun s => ("timestamp", JStr s)) <$> ar_timestamp r;
      (fun b => ("is_mock", JBool b)) <$> ar_is_mock r ]).

Module Aws.

(** One call to an external service; the trace of a run is the list of the
    calls it attempted, in order. *)
Inductive call : Type :=
  | GetItem (key : string)
  | PutItem (key : string)
  | UpdateItem (key : string) (status : string)
  | GetObject (key : string)
  | PutObject (key : string)
  | InvokeAgent (prompt : string)
  | InvokeFunction (analysis_id : string).

(** What a handler can change or observe change: the Blob Store, the
    tracking table, the asynchronous invocations issued, the calls attempted
    and the number of clock readings taken. *)
Record World : Type := mkWorld {
  s3 : gmap string string;
  table : gmap string Item;
  invoked : list string;
  trace : list call;
  ticks : nat
}.

(** What a run of a handler is given: the process environment, the clock,
    the failures of the external services (the n-th call attempted raises
    the given message), the reply of the inference agent and the iteration
    order of sets in this interpreter. *)
Record Env : Type := mkEnv {
  environ : gmap string string;
  time : nat -> Z;
  isoformat : Z -> string;
  fault : nat -> option string;
  agent : string -> list string;
  set_iter : gset string -> list string
}.

(** The result of a computation: a value or a raised exception, with its
    [str(e)]. *)
Inductive outcome (A : Type) : Type :=
  | Ret (a : A)
  | Raise (e : string).
Arguments Ret {A} a.
Arguments Raise {A} e.

Definition M (A : Type) : Type := World -> outcome A * World.

Definition ret {A : Type} (a : A) : M A := fun w => (Ret a, w).

Definition raise {A : Type} (e : string) : M A := fun w => (Raise e, w).

Definition bind {A B : Type} (m : M A) (k : A -> M B) : M B :=
  fun w =>
    match m w with
    | (Ret a, w') => k a w'
    | (Raise e, w') => (Raise e, w')
    end.

(** [try: m except Exception as e: h e] *)
Definition try_except {A : Type} (m : M A) (h : string -> M A) : M A :=
  fun w =>
    match m w with
    | (Ret a, w') => (Ret a, w')
    | (Raise e, w') => h e w'
    end.

#[global] Instance M_ret : MRet M := @ret.
#[global] Instance M_bind : MBind M := fun A B k m => bind m k.

(** [os.environ[key]]; a missing key raises [KeyError], whose [str] is the
    key between single quotes. *)
Definition key_error (key : string) : string := "'" +:+ key +:+ "'".

Definition environ_get (env : Env) (key : string) : M string :=
  match environ env !! key with
  | Some v => ret v
  | None => raise (key_error key)
  end.

(** [datetime.now()], as seconds. *)
Definition now (env : Env) : M Z :=
  fun w =>
    (Ret (time env (ticks w)),
     mkWorld (s3 w) (table w) (invoked w) (trace w) (S (ticks w))).

(** [datetime.now().isoformat()] *)
Definition now_iso (env : Env) : M string :=
  t ← now env; mret (isoformat env t).

(** A call to an external service: it is recorded, and either raises as the
    environment says or has the effect [act]. *)
Definition external {A : Type} (env : Env) (c : call) (act : M A) : M A :=
  fun w =>
    let w1 := mkWorld (s3 w) (table w) (invoked w) (trace w ++ [c]) (ticks w) in
    match fault env (length (trace w)) with
    | Some e => (Raise e, w1)
    | None => act w1
    end.

Definition set_table (t : gmap string Item) (w : World) : World :=
  mkWorld (s3 w) t (invoked w) (trace w) (ticks w).

Definition set_s3 (b : gmap string string) (w : World) : World :=
  mkWorld b (table w) (invoked w) (trace w) (ticks w).

(** [table.get_item(Key={'analysis_id': key})]: the item, if there is one. *)
Definition get_item (env : Env) (key : string) : M (option Item) :=
  external env (GetItem key) (fun w => (Ret (table w !! key), w)).

(** [table.put_item(Item=item)] *)
Definition put_item (env : Env) (key : string) (item : Item) : M unit :=
  external env (PutItem key)
    (fun w => (Ret tt, set_table (<[key := item]> (table w)) w)).

(** [table.update_item(Key=..., UpdateExpression='SET ...')]: the attributes
    are set on the item, which is created when it does not exist. *)
Definition update_item (env : Env) (key : string) (status : string)
    (upd : Item -> Item) : M unit :=
  external env (UpdateItem key status)
    (fun w =>
       (Ret tt,
        set_table (<[key := upd (default empty_item (table w !! key))]>
                     (table w)) w)).

Definition no_such_key : string :=
  "An error occurred (NoSuchKey) when calling the GetObject operation: The specified key does not exist.".

(** [s3_client.get_object(...)['Body'].read().decode('utf-8')] *)
Definition get_object (env : Env) (key : string) : M string :=
  external env (GetObject key)
    (fun w =>
       match s3 w !! key with
       | Some b => (Ret b, w)
       | None => (Raise no_such_key, w)
       end).

(** [s3_client.put_object(Key=key, Body=body, ...)] *)
Definition put_object (env : Env) (key : string) (content : string) : M unit :=
  external env (PutObject key)
    (fun w => (Ret tt, set_s3 (<[key := content]> (s3 w)) w)).

(** [lambda_client.invoke(InvocationType='Event', Payload=...)] *)
Definition invoke_function (env : Env) (analysis_id : string) : M unit :=
  external env (InvokeFunction analysis_id)
    (fun w =>
       (Ret tt,
        mkWorld (s3 w) (table w) (invoked w ++ [analysis_id]) (trace w)
          (ticks w))).

(** [bedrock_agent_client.invoke_agent(...)]: the chunks of the completion
    that carry bytes, decoded. *)
Definition invoke_agent (env : Env) (prompt : string) : M (list string) :=
  external env (InvokeAgent prompt) (fun w => (Ret (agent env prompt), w)).

End Aws.
Module GetAnalysis.

(** The dictionary returned by [format_analysis_results]. *)
Record FormattedResult : Type := mkFormattedResult {
  match_score : Z;
  missing_skills : list string;
  recommendations : list string;
  confidence_score : Z;
  analysis_timestamp : string
}.

(** [calculate_confidence_score(analysis_result, match_score, is_mock)] *)
Definition calculate_confidence_score (analysis_result : AnalysisResult)
    (match_score : Z) (is_mock : bool) : Z :=
  let base_confidence := 70 in
  let base_confidence :=
    if 80 <=? match_score then base_confidence + 20
    else if 60 <=? match_score then base_confidence + 10
    else if 40 <=? match_score then base_confidence + 5
    else base_confidence - 10 in
  let base_confidence :=
    if is_mock then base_confidence - 30 else base_confidence in
  let analysis_text := get (ar_analysis analysis_result) EmptyString in
  let base_confidence :=
    if 500 <? Z.of_nat (String.length analysis_text) then base_confidence + 10
    else if Z.of_nat (String.length analysis_text) <? 100
         then base_confidence - 15
         else base_confidence in
  Z.max 10 (Z.min 95 base_confidence).

(** The character classes of the patterns. *)
Definition sep (c : ascii) : bool := Ascii.eqb c ":" || Py.is_space c.
Definition not_dot (c : ascii) : bool := negb (Ascii.eqb c ".").
Definition a_z (c : ascii) : bool := Py.is_lower c || Py.is_upper c.

(** [word[:\s]+([^.]+)] *)
Definition trigger (word : string) : Py.pattern :=
  Py.lits word ++ [Py.Plus sep; Py.Group not_dot].

(** [words?[:\s]+([^.]+)] *)
Definition trigger_opt (word : string) (c : ascii) : Py.pattern :=
  Py.lits word ++ [Py.Opt c; Py.Plus sep; Py.Group not_dot].

(** [word[a-z]*[:\s]+([^.]+)] *)
Definition trigger_stem (word : string) : Py.pattern :=
  Py.lits word ++ [Py.Star a_z; Py.Plus sep; Py.Group not_dot].

Definition skill_patterns : list Py.pattern :=
  [ trigger "missing";
    trigger_opt "lack" "s";
    trigger "should add";
    trigger_opt "need" "s";
    trigger "consider adding" ].

Definition rec_patterns : list Py.pattern :=
  [ trigger_stem "recommend";
    trigger_stem "suggest";
    trigger "should";
    trigger "consider";
    trigger_stem "improve" ].

(** The recommendations returned when the text yields none. *)
Definition default_recommendations : list string :=
  [ "Add quantified achievements (e.g., 'Increased efficiency by 25%')";
    "Include relevant keywords from the job description";
    "Highlight specific technical skills and experience";
    "Use action verbs to describe accomplishments";
    "Tailor resume content to match job requirements" ].

(** The pieces of one match: split on commas, each piece stripped of
    whitespace and then of quotes. *)
Definition skills_of_match (m : string) : list string :=
  map (fun skill => Py.strip_chars Py.is_quote (Py.strip skill))
      (Py.split_on "," m).

(** The two nested loops over the patterns and their matches. *)
Definition scan_skills (analysis_text : string) : list string :=
  flat_map (fun pat =>
              flat_map skills_of_match (Py.findall true pat analysis_text))
           skill_patterns.

Definition scan_recommendations (analysis_text : string) : list string :=
  flat_map (fun pat =>
              filter (fun r => (10 < String.length r)%nat)
                (map (fun m => Py.strip_chars Py.is_quote (Py.strip m))
                     (Py.findall true pat analysis_text)))
           rec_patterns.

(** [extract_recommendations(analysis_text)] *)
Definition extract_recommendations (analysis_text : string) : list string :=
  let recommendations := scan_recommendations analysis_text in
  let recommendations :=
    match recommendations with
    | [] => default_recommendations
    | _ => recommendations
    end in
  take 5 recommendations.

Section Interpreter.

(** The iteration order of sets in the running interpreter. *)
Variable set_iter : gset string -> list string.

(** [extract_missing_skills(analysis_text)] *)
Definition extract_missing_skills (analysis_text : string) : list string :=
  let missing_skills := scan_skills analysis_text in
  let missing_skills :=
    match missing_skills with
    | [] => if Py.contains "mock" (Py.lower analysis_text)
            then ["Python"; "AWS"; "Docker"]
            else missing_skills
    | _ => missing_skills
    end in
  take 5 (set_iter (list_to_set missing_skills)).

(** [format_analysis_results(analysis_result)]; [now] is the value of
    [datetime.now().isoformat()] at the call. *)
Definition format_analysis_results (now : string)
    (analysis_result : AnalysisResult) : FormattedResult :=
  let match_score := get (ar_match_score analysis_result) 0 in
  let analysis_text := get (ar_analysis analysis_result) EmptyString in
  let timestamp := get (ar_timestamp analysis_result) now in
  let is_mock := get (ar_is_mock analysis_result) false in
  let missing_skills := extract_missing_skills analysis_text in
  let recommendations := extract_recommendations analysis_text in
  let confidence_score :=
    calculate_confidence_score analysis_result match_score is_mock in
  {| match_score := match_score;
     missing_skills := missing_skills;
     recommendations := recommendations;
     confidence_score := confidence_score;
     analysis_timestamp := timestamp |}.

End Interpreter.


(** [json.dumps] of the dictionary [format_analysis_results] returns. *)
Definition results_json (r : FormattedResult) : json :=
  JObj [ ("match_score", JNum (match_score r));
         ("missing_skills", JList (JStr <$> missing_skills r));
         ("recommendations", JList (JStr <$> recommendations r));
         ("confidence_score", JNum (confidence_score r));
         ("analysis_timestamp", JStr (analysis_timestamp r)) ].

(** The headers [lambda_handler] passes to the two route handlers. *)
Definition cors_headers : list (string * string) :=
  [ ("Access-Control-Allow-Origin", "*");
    ("Access-Control-Allow-Headers",
     "Content-Type,X-Amz-Date,Authorization,X-Api-Key,X-Amz-Security-Token");
    ("Access-Control-Allow-Methods", "GET,OPTIONS") ].

Definition error_body (msg : string) : json := JObj [("error", JStr msg)].

Definition status_body (status message : string) : json :=
  JObj [("status", JStr status); ("message", JStr message)].

(** The branch of [handle_get_results] taken once the item is read. *)
Definition respond (env : Aws.Env) (cors_headers : list (string * string))
    (item : Item) : Aws.M Response :=
  let status := get (it_status item) "unknown" in
  if String.eqb status "SUBMITTED" then
    mret (mkResponse 200 cors_headers
            (status_body "processing" "Analysis is queued for processing"))
  else if String.eqb status "PROCESSING" then
    mret (mkResponse 200 cors_headers
            (status_body "processing" "Analysis is currently being processed"))
  else if String.eqb status "FAILED" then
    mret (mkResponse 200 cors_headers
            (JObj [ ("status", JStr "failed");
                    ("error",
                     JStr (get (it_error_message item) "Analysis failed"));
                    ("timestamp",
                     json_opt_str
                       (match it_completion_timestamp item with
                        | Some t => Some t
                        | None => it_timestamp item
                        end)) ]))
  else if String.eqb status "COMPLETED" then
    let analysis_result := get (it_analysis_result item) empty_result in
    t ← Aws.now_iso env;
    let formatted_results :=
      format_analysis_results (Aws.set_iter env) t analysis_result in
    mret (mkResponse 200 cors_headers
            (JObj [ ("status", JStr "completed");
                    ("results", results_json formatted_results) ]))
  else
    mret (mkResponse 200 cors_headers
            (status_body "unknown" ("Unknown status: " +:+ status))).

(** [handle_get_results(event, context, cors_headers)]; of the event only
    [pathParameters] is read ([None] when the key is absent or null). *)
Definition handle_get_results (env : Aws.Env)
    (pathParameters : option (gmap string string))
    (cors_headers : list (string * string)) : Aws.M Response :=
  Aws.try_except
    (let analysis_id :=
       match pathParameters with
       | Some path_parameters => path_parameters !! "analysis_id"
       | None => None
       end in
     match analysis_id with
     | None =>
         mret (mkResponse 400 cors_headers
                 (error_body "analysis_id is required"))
     | Some analysis_id =>
         if negb (Py.truthy analysis_id) then
           mret (mkResponse 400 cors_headers
                   (error_body "analysis_id is required"))
         else
           _ ← Aws.environ_get env "TRACKING_TABLE";
           response ← Aws.get_item env analysis_id;
           match response with
           | None =>
               mret (mkResponse 404 cors_headers
                       (error_body "Analysis not found"))
           | Some item => respond env cors_headers item
           end
     end)
    (fun e =>
       mret (mkResponse 500 cors_headers
               (error_body ("Failed to retrieve analysis: " +:+ e)))).

End GetAnalysis.

(** ** process_analysis *)

Module ProcessAnalysis.

(** The line feed of the two templates. *)
Definition nl : string := String (ascii_of_nat 10) EmptyString.

Definition sep (c : ascii) : bool := Ascii.eqb c ":" || Py.is_space c.

(** The four patterns of [extract_match_score], in the order tried. *)
Definition patterns : list Py.pattern :=
  [ Py.lits "match score" ++ [Py.Plus sep; Py.Group Py.is_digit];
    Py.lits "score" ++ [Py.Plus sep; Py.Group Py.is_digit];
    [Py.Group Py.is_digit] ++ Py.lits "/100";
    [Py.Group Py.is_digit] ++ Py.lits "%" ].

(** The loop over the patterns: the group of the first one that matches. *)
Fixpoint first_match (pats : list Py.pattern) (text : string)
    : option string :=
  match pats with
  | [] => None
  | pat :: pats' =>
      match Py.search false pat text with
      | Some g => Some g
      | None => first_match pats' text
      end
  end.

(** [extract_match_score(analysis_text)] *)
Definition extract_match_score (analysis_text : string) : Z :=
  match first_match patterns (Py.lower analysis_text) with
  | Some g => Py.int g
  | None => 75
  end.

(** [set(text.lower().split())] *)
Definition words (text : string) : gset string :=
  list_to_set (Py.split (Py.lower text)).

(** [common_words] and [mock_score] of [generate_mock_analysis]. *)
Definition common (resume_text job_description : string) : gset string :=
  words resume_text ∩ words job_description.

Definition score (common_words : gset string) : Z :=
  Z.min 100 (Z.of_nat (size common_words) * 5).

(** The text of the fallback analysis. *)
Definition mock_text (set_iter : gset string -> list string)
    (mock_score : Z) (common_words : gset string) : string :=
  Py.join nl
    [
      EmptyString;
      "        MOCK ANALYSIS (Bedrock Agent not configured):";
      "        ";
      "        Match Score: " +:+ pretty mock_score +:+ "/100";
      "        ";
      "        Key Strengths:";
      "        - Found " +:+ pretty (size common_words) +:+ " matching keywords between resume and job description";
      "        - Resume demonstrates relevant experience";
      "        ";
      "        Areas for Improvement:";
      "        - Configure Bedrock Agent for detailed AI-powered analysis";
      "        - Update BedrockAgentId and BedrockAgentAliasId parameters";
      "        ";
      "        Recommendations:";
      "        - This is a mock analysis. Configure AWS Bedrock Agent for real AI-powered resume coaching.";
      "        - Common keywords found: " +:+ Py.join ", " (take 10 (set_iter common_words));
      "        "
    ].

(** [generate_mock_analysis(resume_text, job_description)]; [now] is the
    clock reading, [set_iter] the iteration order of the interpreter. *)
Definition generate_mock_analysis (set_iter : gset string -> list string)
    (now : string) (resume_text job_description : string) : AnalysisResult :=
  let common_words := common resume_text job_description in
  let mock_score := score common_words in
  {| ar_match_score := Some mock_score;
     ar_analysis := Some (mock_text set_iter mock_score common_words);
     ar_timestamp := Some now;
     ar_is_mock := Some true |}.

Definition prompt (resume_text job_description : string) : string :=
  Py.join nl
    [
      EmptyString;
      "    Please analyze the following resume against the job description and provide detailed feedback:";
      "    ";
      "    RESUME:";
      "    " +:+ resume_text;
      "    ";
      "    JOB DESCRIPTION:";
      "    " +:+ job_description;
      "    ";
      "    Please provide:";
      "    1. Match score (0-100)";
      "    2. Key strengths that align with the job";
      "    3. Areas for improvement";
      "    4. Missing skills or qualifications";
      "    5. Specific recommendations for improvement";
      "    "
    ].

(** [invoke_bedrock_agent(resume_text, job_description, agent_id,
    agent_alias_id)]: the clock is read for the session id, the agent is
    called, the chunks are concatenated and scanned for a score. *)
Definition invoke_bedrock_agent (env : Aws.Env)
    (resume_text job_description : string) : Aws.M AnalysisResult :=
  _ ← Aws.now env;
  chunks ← Aws.invoke_agent env (prompt resume_text job_description);
  let result := String.concat EmptyString chunks in
  let match_score := extract_match_score result in
  t ← Aws.now_iso env;
  mret {| ar_match_score := Some match_score;
          ar_analysis := Some result;
          ar_timestamp := Some t;
          ar_is_mock := None |}.

(** The three [SET] expressions of the handler. *)
Definition set_processing (t : string) (it : Item) : Item :=
  mkItem (Some "PROCESSING") (it_timestamp it) (it_resume_s3_path it)
    (it_jd_s3_path it) (Some t) (it_completion_timestamp it)
    (it_error_message it) (it_analysis_result it).

Definition set_failed (error t : string) (it : Item) : Item :=
  mkItem (Some "FAILED") (it_timestamp it) (it_resume_s3_path it)
    (it_jd_s3_path it) (it_processing_timestamp it) (Some t)
    (Some error) (it_analysis_result it).

Definition set_completed (result : AnalysisResult) (t : string) (it : Item)
    : Item :=
  mkItem (Some "COMPLETED") (it_timestamp it) (it_resume_s3_path it)
    (it_jd_s3_path it) (it_processing_timestamp it) (Some t)
    (it_error_message it) (Some result).

Definition error_response (msg : string) : Response :=
  mkResponse 500 [] (JObj [("error", JStr msg)]).

(** The update to [FAILED] of an [except] clause, and its response. *)
Definition fail (env : Aws.Env) (analysis_id msg : string)
    : Aws.M Response :=
  t ← Aws.now_iso env;
  _ ← Aws.update_item env analysis_id "FAILED" (set_failed msg t);
  mret (error_response msg).

Definition resume_key (analysis_id : string) : string :=
  "raw-inputs/" +:+ analysis_id +:+ "/resume.txt".

Definition jd_key (analysis_id : string) : string :=
  "raw-inputs/" +:+ analysis_id +:+ "/job_description.txt".

(** Whether the agent identifiers are set to something else than the
    placeholders. *)
Definition agent_configured (env : Aws.Env) : bool :=
  let bedrock_agent_id :=
    default "PLACEHOLDER_AGENT_ID" (Aws.environ env !! "BEDROCK_AGENT_ID") in
  let bedrock_agent_alias_id :=
    default "TSTALIASID" (Aws.environ env !! "BEDROCK_AGENT_ALIAS_ID") in
  negb (String.eqb bedrock_agent_id "PLACEHOLDER_AGENT_ID")
  && negb (String.eqb bedrock_agent_alias_id "TSTALIASID").

(** The body of the outer [try], from the lookup of the bucket on. *)
Definition process (env : Aws.Env) (analysis_id : string) : Aws.M Response :=
  _ ← Aws.environ_get env "RAW_INPUTS_BUCKET";
  t ← Aws.now_iso env;
  _ ← Aws.update_item env analysis_id "PROCESSING" (set_processing t);
  inputs ← Aws.try_except
    (resume_text ← Aws.get_object env (resume_key analysis_id);
     job_description ← Aws.get_object env (jd_key analysis_id);
     mret (inl (resume_text, job_description)))
    (fun e =>
       r ← fail env analysis_id ("Failed to retrieve input files: " +:+ e);
       mret (inr r));
  match inputs with
  | inr r => mret r
  | inl (resume_text, job_description) =>
      analysis ←
        (if agent_configured env then
           Aws.try_except
             (a ← invoke_bedrock_agent env resume_text job_description;
              mret (inl a))
             (fun e =>
                r ← fail env analysis_id ("Bedrock Agent error: " +:+ e);
                mret (inr r))
         else
           t ← Aws.now_iso env;
           mret (inl (generate_mock_analysis (Aws.set_iter env) t
                        resume_text job_description)));
      match analysis with
      | inr r => mret r
      | inl analysis_result =>
          t ← Aws.now_iso env;
          _ ← Aws.update_item env analysis_id "COMPLETED"
                (set_completed analysis_result t);
          mret (mkResponse 200 []
                  (JObj [ ("status", JStr "completed");
                          ("analysis_id", JStr analysis_id);
                          ("result", result_json analysis_result) ]))
      end
  end.

(** [lambda_handler(event, context)].  When [analysis_id] or the table is
    not bound yet, the update of the outer [except] clause raises
    [NameError], which its bare [except] swallows. *)
Definition lambda_handler (env : Aws.Env) (event : gmap string string)
    : Aws.M Response :=
  match event !! "analysis_id" with
  | None => mret (error_response (Aws.key_error "analysis_id"))
  | Some analysis_id =>
      match Aws.environ env !! "TRACKING_TABLE" with
      | None => mret (error_response (Aws.key_error "TRACKING_TABLE"))
      | Some _ =>
          Aws.try_except (process env analysis_id)
            (fun e =>
               _ ← Aws.try_except
                     (t ← Aws.now_iso env;
                      Aws.update_item env analysis_id "FAILED"
                        (set_failed e t))
                     (fun _ => mret tt);
               mret (error_response e))
      end
  end.

End ProcessAnalysis.

(** ** submit_analysis *)

Module SubmitAnalysis.

(** A value of the parsed request body. *)
Inductive pyval : Type :=
  | PNone
  | PBool (b : bool)
  | PNum (z : Z)
  | PStr (s : string)
  | POther (truth : bool) (repr : string).

(** [bool(v)] *)
Definition truthy (v : pyval) : bool :=
  match v with
  | PNone => false
  | PBool b => b
  | PNum z => negb (z =? 0)
  | PStr s => Py.truthy s
  | POther t _ => t
  end.

(** [str(v)], as an f-string formats it. *)
Definition to_str (v : pyval) : string :=
  match v with
  | PNone => "None"
  | PBool true => "True"
  | PBool false => "False"
  | PNum z => pretty z
  | PStr s => s
  | POther _ r => r
  end.

Definition to_json (v : pyval) : json :=
  match v with
  | PNone => JNull
  | PBool b => JBool b
  | PNum z => JNum z
  | PStr s => JStr s
  | POther _ r => JStr r
  end.

(** [v.encode('utf-8')]: only a string has the method. *)
Definition encode (v : pyval) : Aws.M string :=
  match v with
  | PStr s => mret s
  | _ => Aws.raise "object has no attribute 'encode'"
  end.

(** [json.loads(event['body'])]: an exception (no body, not JSON, not an
    object), or the fields of the object. *)
Inductive request_body : Type :=
  | Malformed (error : string)
  | Fields (d : gmap string pyval).

(** [body[key]] *)
Definition item (d : gmap string pyval) (key : string) : Aws.M pyval :=
  match d !! key with
  | Some v => mret v
  | None => Aws.raise (Aws.key_error key)
  end.

(** [get_estimated_completion()]: 30 seconds from now. *)
Definition get_estimated_completion (env : Aws.Env) : Aws.M string :=
  t ← Aws.now env;
  mret (Aws.isoformat env (t + 30)).

Definition submitted_headers : list (string * string) :=
  [ ("Access-Control-Allow-Origin", "*");
    ("Access-Control-Allow-Headers", "Content-Type");
    ("Access-Control-Allow-Methods", "POST, OPTIONS") ].

Definition error_response (code : Z) (msg : string) : Response :=
  mkResponse code [] (JObj [("error", JStr msg)]).

(** [lambda_handler(event, context)] *)
Definition lambda_handler (env : Aws.Env) (body : request_body)
    : Aws.M Response :=
  Aws.try_except
    (match body with
     | Malformed e => Aws.raise e
     | Fields d =>
         analysis_id ← item d "analysis_id";
         resume_text ← item d "resume_text";
         job_description ← item d "job_description";
         if negb (truthy resume_text) || negb (truthy job_description) then
           mret (error_response 400 "Resume and job description are required")
         else
           let id := to_str analysis_id in
           _ ← Aws.environ_get env "RAW_INPUTS_BUCKET";
           resume_bytes ← encode resume_text;
           _ ← Aws.put_object env (ProcessAnalysis.resume_key id) resume_bytes;
           jd_bytes ← encode job_description;
           _ ← Aws.put_object env (ProcessAnalysis.jd_key id) jd_bytes;
           _ ← Aws.environ_get env "TRACKING_TABLE";
           t ← Aws.now_iso env;
           _ ← Aws.put_item env id
                 (mkItem (Some "SUBMITTED") (Some t)
                    (Some (ProcessAnalysis.resume_key id))
                    (Some (ProcessAnalysis.jd_key id)) None None None None);
           _ ← Aws.environ_get env "PROCESS_FUNCTION";
           _ ← Aws.invoke_function env id;
           estimated_completion ← get_estimated_completion env;
           mret (mkResponse 202 submitted_headers
                   (JObj [ ("status", JStr "submitted");
                           ("analysis_id", to_json analysis_id);
                           ("estimated_completion",
                            JStr estimated_completion) ]))
     end)
    (fun e => mret (error_response 500 e)).

End SubmitAnalysis.

(** ** Reference definitions *)

Module Spec.

(** Clamping of [x] to the interval from [lo] to [hi]. *)
Definition clamp (lo hi x : Z) : Z :=
  if x <? lo then lo else if hi <? x then hi else x.

(** The confidence score as the specification words it: a start value and
    three adjustments made independently of each other, then the clamp. *)
Definition confidence (match_score : Z) (is_mock : bool) (text_length : Z)
    : Z :=
  let by_score :=
    if 80 <=? match_score then 20
    else if 60 <=? match_score then 10
    else if 40 <=? match_score then 5
    else -10 in
  let by_mock := if is_mock then -30 else 0 in
  let by_long := if 500 <? text_length then 10 else 0 in
  let by_short := if text_length <? 100 then -15 else 0 in
  clamp 10 95 (70 + by_score + by_mock + by_long + by_short).

(** The lowercase word set of a text: the words are the maximal runs of
    characters other than whitespace. *)
Definition word_set (text : string) : gset string :=
  list_to_set (Py.lower <$> Py.split text).

(** The stored result with the defaults of the formatter filled in. *)
Definition with_defaults (r : AnalysisResult) : AnalysisResult :=
  {| ar_match_score := Some (default 0 (ar_match_score r));
     ar_analysis := Some (default EmptyString (ar_analysis r));
     ar_timestamp := ar_timestamp r;
     ar_is_mock := Some (default false (ar_is_mock r)) |}.

End Spec.

(** ** Sample runs *)

Module Sample.

Definition clock (n : nat) : Z := 1700000000 + Z.of_nat n.

Definition environ : gmap string string :=
  <["TRACKING_TABLE" := "analysis-tracking"]>
    (<["RAW_INPUTS_BUCKET" := "raw-inputs-bucket"]>
       (<["PROCESS_FUNCTION" := "process-analysis"]> ∅)).

(** The environment of a deployment with the placeholder agent. *)
Definition env : Aws.Env :=
  Aws.mkEnv environ clock pretty (fun _ => None) (fun _ => []) elements.

(** The same deployment when the first external call of a run fails. *)
Definition env_first_call_fails : Aws.Env :=
  Aws.mkEnv environ clock pretty
    (fun n => match n with O => Some "ThrottlingException" | _ => None end)
    (fun _ => []) elements.

(** A deployment with a configured agent, which answers with a score above
    the scale. *)
Definition env_agent : Aws.Env :=
  Aws.mkEnv
    (<["BEDROCK_AGENT_ID" := "AGENT123"]>
       (<["BEDROCK_AGENT_ALIAS_ID" := "ALIAS123"]> environ))
    clock pretty (fun _ => None) (fun _ => ["Match score: 150"]) elements.


Definition event : gmap string string := <["analysis_id" := "a1"]> ∅.

(** A world in which the two documents of analysis [a1] are stored and its
    record is [SUBMITTED]. *)
Definition submitted : Aws.World :=
  Aws.mkWorld
    (<["raw-inputs/a1/resume.txt" := "Python AWS microservices experience"]>
       (<["raw-inputs/a1/job_description.txt" :=
            "Python AWS microservices required"]> ∅))
    (<["a1" := mkItem (Some "SUBMITTED") (Some "1699999990")
                 (Some "raw-inputs/a1/resume.txt")
                 (Some "raw-inputs/a1/job_description.txt")
                 None None None None]> ∅)
    [] [] 0.

(** A stored result whose text names two missing skills. *)
Definition two_skills : AnalysisResult :=
  mkAnalysisResult (Some 60) (Some "missing: Python, AWS.")
    (Some "2024-01-01T00:00:00") (Some false).

(** A world in which the record of [a1] is [COMPLETED]. *)
Definition completed : Aws.World :=
  Aws.mkWorld ∅
    (<["a1" := mkItem (Some "COMPLETED") (Some "1699999990") None None
                 (Some "1699999991") (Some "1699999992") None
                 (Some two_skills)]> ∅)
    [] [] 0.

Definition empty_world : Aws.World := Aws.mkWorld ∅ ∅ [] [] 0.

(** Request bodies of the submission handler. *)
Definition body_without_job : gmap string SubmitAnalysis.pyval :=
  <["analysis_id" := SubmitAnalysis.PStr "a1"]>
    (<["resume_text" := SubmitAnalysis.PStr "x"]> ∅).


End Sample.

(** ** get_analysis: the health check and the routes *)

Module GetAnalysisApi.

(** The two connectivity probes of the health check, [describe_table] and
    [head_bucket], by the name they are given: [None] when the call
    returns, the [str] of the exception when it raises. *)
Record Probes : Type := mkProbes {
  describe_table : string -> option string;
  head_bucket : string -> option string
}.

(** One entry of [checks]. *)
Record Check : Type := mkCheck {
  check_status : string;
  check_message : string
}.

(** The dictionary [perform_health_checks] returns; [checks] in the order
    of insertion. *)
Record HealthStatus : Type := mkHealthStatus {
  healthy : bool;
  checks : list (string * Check)
}.

(** The body of a [try] of [perform_health_checks]: the variable is read
    from the environment, then the service is probed. *)
Definition probe (env : Aws.Env) (var : string)
    (call : string -> option string) : option string :=
  match Aws.environ env !! var with
  | None => Some (Aws.key_error var)
  | Some name => call name
  end.

Definition required_env_vars : list string :=
  ["TRACKING_TABLE"; "RAW_INPUTS_BUCKET"].

(** [[var for var in required_env_vars if not os.environ.get(var)]] *)
Definition missing_vars (env : Aws.Env) : list string :=
  filter (fun var =>
            Py.truthy (default EmptyString (Aws.environ env !! var)) = false)
         required_env_vars.

(** [perform_health_checks()] *)
Definition perform_health_checks (env : Aws.Env) (probes : Probes)
    : HealthStatus :=
  let checks := [] in
  let overall_healthy := true in
  let '(checks, overall_healthy) :=
    match probe env "TRACKING_TABLE" (describe_table probes) with
    | None =>
        (checks ++ [("dynamodb", mkCheck "healthy" "Connected successfully")],
         overall_healthy)
    | Some e => (checks ++ [("dynamodb", mkCheck "unhealthy" e)], false)
    end in
  let '(checks, overall_healthy) :=
    match probe env "RAW_INPUTS_BUCKET" (head_bucket probes) with
    | None =>
        (checks ++ [("s3", mkCheck "healthy" "Bucket accessible")],
         overall_healthy)
    | Some e => (checks ++ [("s3", mkCheck "unhealthy" e)], false)
    end in
  let '(checks, overall_healthy) :=
    match missing_vars env with
    | [] =>
        (checks ++ [("environment",
                     mkCheck "healthy" "All required variables present")],
         overall_healthy)
    | missing =>
        (checks ++ [("environment",
                     mkCheck "unhealthy"
                       ("Missing environment variables: "
                        +:+ Py.join ", " missing))],
         false)
    end in
  {| healthy := overall_healthy; checks := checks |}.

Definition check_json (c : Check) : json :=
  JObj [("status", JStr (check_status c)); ("message", JStr (check_message c))].

Definition checks_json (cs : list (string * Check)) : json :=
  JObj (prod_map id check_json <$> cs).

(** [handle_health_check(event, context, cors_headers)] *)
Definition handle_health_check (env : Aws.Env) (probes : Probes)
    (cors_headers : list (string * string)) : Aws.M Response :=
  Aws.try_except
    (let health_status := perform_health_checks env probes in
     if healthy health_status then
       t ← Aws.now_iso env;
       mret (mkResponse 200 cors_headers
               (JObj [ ("status", JStr "healthy");
                       ("timestamp", JStr t);
                       ("checks", checks_json (checks health_status)) ]))
     else
       t ← Aws.now_iso env;
       mret (mkResponse 503 cors_headers
               (JObj [ ("status", JStr "unhealthy");
                       ("timestamp", JStr t);
                       ("checks", checks_json (checks health_status)) ])))
    (fun e =>
       t ← Aws.now_iso env;
       mret (mkResponse 500 cors_headers
               (JObj [ ("status", JStr "error");
                       ("timestamp", JStr t);
                       ("error", JStr e) ]))).

(** The keys of the event the handler reads; [path] and [httpMethod] are
    strings when present. *)
Record Event : Type := mkEvent {
  path : option string;
  httpMethod : option string;
  pathParameters : option (gmap string string)
}.

Definition route_not_found (cors_headers : list (string * string))
    : Response :=
  mkResponse 404 cors_headers (GetAnalysis.error_body "Route not found").

(** The headers of the response to an exception in the handler itself. *)
Definition fallback_headers : list (string * string) :=
  [ ("Access-Control-Allow-Origin", "*");
    ("Access-Control-Allow-Headers", "Content-Type");
    ("Access-Control-Allow-Methods", "GET,OPTIONS") ].

(** [lambda_handler(event, context)] *)
Definition lambda_handler (env : Aws.Env) (probes : Probes) (event : Event)
    : Aws.M Response :=
  Aws.try_except
    (let path := get (path event) EmptyString in
     let method := get (httpMethod event) EmptyString in
     let cors_headers := GetAnalysis.cors_headers in
     if String.eqb method "GET" then
       if String.prefix "/results/" path then
         GetAnalysis.handle_get_results env (pathParameters event)
           cors_headers
       else if String.eqb path "/health" then
         handle_health_check env probes cors_headers
       else mret (route_not_found cors_headers)
     else mret (route_not_found cors_headers))
    (fun e =>
       mret (mkResponse 500 fallback_headers (GetAnalysis.error_body e))).

End GetAnalysisApi.

(** ** Predicates on texts *)

Module Text.

(** Every character of the text satisfies [p]. *)
Fixpoint all_chars (p : ascii -> bool) (s : string) : bool :=
  match s with
  | EmptyString => true
  | String c s' => p c && all_chars p s'
  end.

Definition no_digit (s : string) : bool :=
  all_chars (fun c => negb (Py.is_digit c)) s.

(** Neither a period nor a comma. *)
Definition plain (c : ascii) : bool :=
  negb (Ascii.eqb c ".") && negb (Ascii.eqb c ",").

End Text.

(** ** Further sample runs *)

Module Scenario.

(** A complete request body of the submission handler. *)
Definition body_complete : gmap string SubmitAnalysis.pyval :=
  <["analysis_id" := SubmitAnalysis.PStr "a1"]>
    (<["resume_text" :=
         SubmitAnalysis.PStr "Python AWS microservices experience"]>
       (<["job_description" :=
            SubmitAnalysis.PStr "Python AWS microservices required"]> ∅)).

(** The deployment of [Sample.env] when the third external call of a run
    fails. *)
Definition env_record_write_fails : Aws.Env :=
  Aws.mkEnv Sample.environ Sample.clock pretty
    (fun n => if decide (n = 2)%nat
              then Some "ProvisionedThroughputExceededException" else None)
    (fun _ => []) elements.

(** A deployment with a configured agent when the fourth external call of
    a run fails. *)
Definition env_agent_fails : Aws.Env :=
  Aws.mkEnv (Aws.environ Sample.env_agent) Sample.clock pretty
    (fun n => if decide (n = 3)%nat
              then Some "AccessDeniedException" else None)
    (fun _ => []) elements.

End Scenario.

(** Unfolding of the monad and of the external calls in the run of a
    handler. *)
Ltac run :=
  cbv [mbind mret Aws.M_bind Aws.M_ret Aws.bind Aws.ret Aws.raise
       Aws.try_except Aws.external Aws.environ_get Aws.now Aws.now_iso
       Aws.get_item Aws.put_item Aws.update_item Aws.get_object
       Aws.put_object Aws.invoke_function Aws.invoke_agent
       Aws.set_table Aws.set_s3
       Aws.s3 Aws.table Aws.invoked Aws.trace Aws.ticks].

(** * Properties *)

Lemma get_default {A : Type} (o : option A) (d : A) : get o d = default d o.
Proof. destruct o; reflexivity. Qed.

(** ** The primitives on sample texts *)

Example split_on_keeps_empty_pieces :
  Py.split_on "," "Python,, AWS" = ["Python"; EmptyString; " AWS"].
Proof. reflexivity. Qed.

Example strip_whitespace_then_quotes :
  Py.strip_chars Py.is_quote (Py.strip "  'Kubernetes'  ") = "Kubernetes".
Proof. reflexivity. Qed.

Example split_words :
  Py.split "  Python   AWS microservices "
  = ["Python"; "AWS"; "microservices"].
Proof. reflexivity. Qed.

(** The separator class backs off to leave one character to the group. *)
Example findall_missing :
  Py.findall true (GetAnalysis.trigger "missing")
    "Missing: Docker, SQL. It is missing  ."
  = ["Docker, SQL"; " "].
Proof. vm_compute. reflexivity. Qed.

Example findall_optional_letter :
  Py.findall true (GetAnalysis.trigger_opt "need" "s")
    "It NEEDS work. You need: tests."
  = ["work"; "tests"].
Proof. vm_compute. reflexivity. Qed.

Example findall_stem :
  Py.findall true (GetAnalysis.trigger_stem "recommend")
    "We recommended: add metrics to every bullet. Done."
  = ["add metrics to every bullet"].
Proof. vm_compute. reflexivity. Qed.

Example search_leftmost_percentage :
  Py.search false [Py.Group Py.is_digit; Py.Lit "%"]
    "grew 20 then 300% and 5%"
  = Some "300".
Proof. vm_compute. reflexivity. Qed.

(** The patterns of the score are tried in order, not by position. *)
Example extract_match_score_first_pattern :
  ProcessAnalysis.extract_match_score "Overall: 85/100. Match Score: 90" = 90.
Proof. vm_compute. reflexivity. Qed.

Example extract_match_score_default :
  ProcessAnalysis.extract_match_score "No number here" = 75.
Proof. vm_compute. reflexivity. Qed.

(** ** The confidence score *)

Lemma clamp_max_min (x : Z) : Z.max 10 (Z.min 95 x) = Spec.clamp 10 95 x.
Proof.
  unfold Spec.clamp.
  destruct (Z.ltb_spec x 10), (Z.ltb_spec 95 x); lia.
Qed.

(** C1: for every stored result, match score and mock flag, the confidence
    score computed by the formatter is the one the specification describes
    (start at 70; +20, +10 or +5 for a match score of at least 80, 60 or 40,
    otherwise -10; -30 for a mock result; +10 for a text of more than 500
    characters, -15 for one of fewer than 100; clamped to the interval from
    10 to 95), and it lies between 10 and 95. *)
Theorem C1_confidence_score (analysis_result : AnalysisResult)
    (match_score : Z) (is_mock : bool) :
  GetAnalysis.calculate_confidence_score analysis_result match_score is_mock
  = Spec.confidence match_score is_mock
      (Z.of_nat (String.length (default EmptyString
                                  (ar_analysis analysis_result))))
  /\ 10 <= GetAnalysis.calculate_confidence_score analysis_result
             match_score is_mock <= 95.
Proof.
  unfold GetAnalysis.calculate_confidence_score, Spec.confidence.
  replace (get (ar_analysis analysis_result) EmptyString)
    with (default EmptyString (ar_analysis analysis_result))
    by (destruct (ar_analysis analysis_result); reflexivity).
  set (n := Z.of_nat (String.length _)).
  split; [|lia].
  rewrite clamp_max_min. f_equal.
  destruct (Z.leb_spec 80 match_score), (Z.leb_spec 60 match_score),
    (Z.leb_spec 40 match_score), is_mock, (Z.ltb_spec 500 n),
    (Z.ltb_spec n 100); lia.
Qed.

(** ** The local fallback analysis *)

Lemma is_space_lower_char (c : ascii) :
  Py.is_space (Py.lower_char c) = Py.is_space c.
Proof.
  destruct c as [[|] [|] [|] [|] [|] [|] [|] [|]]; reflexivity.
Qed.

Lemma lower_rev_app (s acc : string) :
  Py.lower (String.rev_app s acc) = String.rev_app (Py.lower s) (Py.lower acc).
Proof.
  revert acc. induction s as [|c s IH]; intros acc; simpl; [reflexivity|].
  rewrite IH. reflexivity.
Qed.

Lemma lower_rev (s : string) : Py.lower (String.rev s) = String.rev (Py.lower s).
Proof. unfold String.rev. apply lower_rev_app. Qed.

Lemma split_ws_go_lower (cur s : string) :
  Py.split_ws_go (Py.lower cur) (Py.lower s)
  = Py.lower <$> Py.split_ws_go cur s.
Proof.
  revert cur. induction s as [|c s IH]; intros cur; simpl.
  - destruct cur; simpl; [reflexivity|].
    f_equal. symmetry. apply (lower_rev (String _ _)).
  - rewrite is_space_lower_char. destruct (Py.is_space c).
    + destruct cur; simpl.
      * apply (IH EmptyString).
      * f_equal; [symmetry; apply (lower_rev (String _ _))|].
        apply (IH EmptyString).
    + apply (IH (String c cur)).
Qed.

(** Lowering the text and then splitting it, as the code does, gives the
    lowercase words of the text. *)
Lemma words_word_set (text : string) :
  ProcessAnalysis.words text = Spec.word_set text.
Proof.
  unfold ProcessAnalysis.words, Spec.word_set, Py.split.
  rewrite <- split_ws_go_lower. reflexivity.
Qed.

(** The score of the fallback analysis is within the scale. *)
Lemma mock_score_range (common_words : gset string) :
  0 <= ProcessAnalysis.score common_words <= 100.
Proof. unfold ProcessAnalysis.score. lia. Qed.

(** C2: the fallback analysis of a resume and a job description has the
    match score min(100, 5 n), where n is the number of lowercase words the
    two texts share, and is marked as mock; the score depends on the two
    texts only (not on the clock nor on the iteration order of sets).  For
    the resume [Python AWS microservices experience] and the job
    [Python AWS microservices required], n is 3 and the score is 15. *)
Theorem C2_mock_analysis (set_iter : gset string -> list string)
    (now resume_text job_description : string) :
  ar_match_score
    (ProcessAnalysis.generate_mock_analysis set_iter now
       resume_text job_description)
  = Some (Z.min 100
            (5 * Z.of_nat (size (Spec.word_set resume_text
                                 ∩ Spec.word_set job_description))))
  /\ ar_is_mock
       (ProcessAnalysis.generate_mock_analysis set_iter now
          resume_text job_description)
     = Some true
  /\ (forall (set_iter' : gset string -> list string) (now' : string),
        ar_match_score
          (ProcessAnalysis.generate_mock_analysis set_iter' now'
             resume_text job_description)
        = ar_match_score
            (ProcessAnalysis.generate_mock_analysis set_iter now
               resume_text job_description))
  /\ size (Spec.word_set "Python AWS microservices experience"
           ∩ Spec.word_set "Python AWS microservices required") = 3%nat
  /\ ar_match_score
       (ProcessAnalysis.generate_mock_analysis set_iter now
          "Python AWS microservices experience"
          "Python AWS microservices required")
     = Some 15.
Proof.
  cbv [ProcessAnalysis.generate_mock_analysis ar_match_score ar_is_mock].
  split; [|split; [|split; [|split]]].
  - unfold ProcessAnalysis.score, ProcessAnalysis.common.
    rewrite !words_word_set. f_equal. lia.
  - reflexivity.
  - intros set_iter' now'. reflexivity.
  - vm_compute. reflexivity.
  - vm_compute. reflexivity.
Qed.

(** ** The retrieval handler *)

(** C3: a retrieval request that carries a non-empty analysis id, in a
    deployment whose table is configured and answers the read, is answered
    with status 404 when the table has no record of that id.  Otherwise the
    status is 200 and the body follows the status of the record:
    [SUBMITTED] and [PROCESSING] give the status [processing]; [FAILED]
    gives [failed] with the error message and the timestamp of the record;
    [COMPLETED] gives [completed] with the stored result formatted at the
    time of the request; any other value gives [unknown].  Nothing is
    written. *)
Theorem C3_retrieval (env : Aws.Env) (path_parameters : gmap string string)
    (analysis_id : string) (hdrs : list (string * string)) (w : Aws.World) :
  path_parameters !! "analysis_id" = Some analysis_id ->
  analysis_id <> EmptyString ->
  is_Some (Aws.environ env !! "TRACKING_TABLE") ->
  Aws.fault env (length (Aws.trace w)) = None ->
  exists (r : Response) (w' : Aws.World),
    GetAnalysis.handle_get_results env (Some path_parameters) hdrs w
    = (Aws.Ret r, w')
    /\ Aws.table w' = Aws.table w
    /\ Aws.s3 w' = Aws.s3 w
    /\ (Aws.table w !! analysis_id = None -> statusCode r = 404)
    /\ (forall item : Item,
          Aws.table w !! analysis_id = Some item ->
          statusCode r = 200
          /\ forall status : string,
               default "unknown" (it_status item) = status ->
               (status = "SUBMITTED" \/ status = "PROCESSING" ->
                exists message : string,
                  body r = JObj [ ("status", JStr "processing");
                                  ("message", JStr message) ])
               /\ (status = "FAILED" ->
                   body r
                   = JObj [ ("status", JStr "failed");
                            ("error",
                             JStr (default "Analysis failed"
                                     (it_error_message item)));
                            ("timestamp",
                             json_opt_str
                               (match it_completion_timestamp item with
                                | Some t => Some t
                                | None => it_timestamp item
                                end)) ])
               /\ (status = "COMPLETED" ->
                   body r
                   = JObj [ ("status", JStr "completed");
                            ("results",
                             GetAnalysis.results_json
                               (GetAnalysis.format_analysis_results
                                  (Aws.set_iter env)
                                  (Aws.isoformat env
                                     (Aws.time env (Aws.ticks w)))
                                  (default empty_result
                                     (it_analysis_result item)))) ])
               /\ (status ∉ ["SUBMITTED"; "PROCESSING"; "FAILED"; "COMPLETED"] ->
                   body r
                   = JObj [ ("status", JStr "unknown");
                            ("message",
                             JStr ("Unknown status: " +:+ status)) ])).
Proof.
  intros Hid Hne [tbl Htbl] Hfault.
  unfold GetAnalysis.handle_get_results. rewrite Hid.
  destruct analysis_id as [|c id']; [congruence|].
  set (id := String c id') in *.
  destruct w as [s3 table invoked trace ticks]. simpl in Hfault |- *.
  run. simpl negb. cbv iota. rewrite Htbl. rewrite Hfault.
  destruct (table !! id) as [item|] eqn:Hitem.
  2:{ eexists _, _. split; [reflexivity|]. simpl. repeat split; try done. }
  unfold GetAnalysis.respond.
  rewrite (get_default (it_status item)).
  set (st := default "unknown" (it_status item)).
  rewrite !get_default.
  destruct (String.eqb_spec st "SUBMITTED") as [E1|N1];
    [|destruct (String.eqb_spec st "PROCESSING") as [E2|N2];
      [|destruct (String.eqb_spec st "FAILED") as [E3|N3];
        [|destruct (String.eqb_spec st "COMPLETED") as [E4|N4]]]];
    run; (eexists _, _; split; [reflexivity|]);
    (split; [reflexivity|]); (split; [reflexivity|]);
    (split; [discriminate|]);
    intros item0 [= <-]; (split; [reflexivity|]);
    intros status <-; fold st; simpl body;
    (split; [intros [H|H]|split; [intros H|split; [intros H|intros H]]]);
    try congruence; try (eexists; reflexivity);
    try (exfalso; apply H; rewrite ?E1, ?E2, ?E3, ?E4; repeat constructor).
Qed.

Lemma C3_retrieval_witness :
  Sample.event !! "analysis_id" = Some "a1"
  /\ exists (r : Response) (w' : Aws.World),
       GetAnalysis.handle_get_results Sample.env (Some Sample.event)
         GetAnalysis.cors_headers Sample.completed = (Aws.Ret r, w')
       /\ statusCode r = 200
       /\ Aws.table w' = Aws.table Sample.completed.
Proof.
  split; [vm_compute; reflexivity|].
  destruct (C3_retrieval Sample.env Sample.event "a1"
              GetAnalysis.cors_headers Sample.completed)
    as (r & w' & Hrun & Htable & _ & _ & Hitem).
  - vm_compute. reflexivity.
  - discriminate.
  - eexists. vm_compute. reflexivity.
  - reflexivity.
  - exists r, w'. split; [exact Hrun|]. split; [|exact Htable].
    eapply Hitem. vm_compute. reflexivity.
Defined.

(** ** The result formatter *)

Lemma elem_of_take_elem_of {A : Type} (x : A) (n : nat) (l : list A) :
  x ∈ take n l -> x ∈ l.
Proof.
  rewrite elem_of_take. intros (i & Hi & _).
  eapply list_elem_of_lookup_2. exact Hi.
Qed.

(** Under any iteration order a set is listed in full, each element once. *)
Lemma set_order_length (set_iter : gset string -> list string)
    (X : gset string) :
  set_order set_iter -> length (set_iter X) = size X.
Proof. intros H. rewrite (H X). reflexivity. Qed.

Lemma set_order_elem_of (set_iter : gset string -> list string)
    (X : gset string) (x : string) :
  set_order set_iter -> x ∈ set_iter X <-> x ∈ X.
Proof. intros H. rewrite (H X). apply elem_of_elements. Qed.

Lemma set_order_empty (set_iter : gset string -> list string) :
  set_order set_iter -> set_iter ∅ = [].
Proof.
  intros H. apply Permutation_nil_r. rewrite (H ∅).
  rewrite elements_empty. reflexivity.
Qed.



(** Both lists are capped at five entries. *)
Lemma extract_missing_skills_length (set_iter : gset string -> list string)
    (analysis_text : string) :
  (length (GetAnalysis.extract_missing_skills set_iter analysis_text) <= 5)%nat.
Proof. unfold GetAnalysis.extract_missing_skills. rewrite length_take. lia. Qed.

Lemma extract_recommendations_length (analysis_text : string) :
  (length (GetAnalysis.extract_recommendations analysis_text) <= 5)%nat.
Proof. unfold GetAnalysis.extract_recommendations. rewrite length_take. lia. Qed.

(** A recommendation found in the text is longer than ten characters. *)
Lemma scan_recommendations_long (analysis_text r : string) :
  r ∈ GetAnalysis.scan_recommendations analysis_text ->
  (10 < String.length r)%nat.
Proof.
  unfold GetAnalysis.scan_recommendations.
  rewrite list_elem_of_In, in_flat_map. intros (pat & _ & Hr).
  apply list_elem_of_In, list_elem_of_filter in Hr. tauto.
Qed.

(** The recommendations never contain the empty string. *)
Lemma extract_recommendations_nonempty (analysis_text : string) :
  EmptyString ∉ GetAnalysis.extract_recommendations analysis_text.
Proof.
  unfold GetAnalysis.extract_recommendations. intros H.
  apply elem_of_take_elem_of in H.
  destruct (GetAnalysis.scan_recommendations analysis_text) as [|r0 rs] eqn:E.
  - revert H. unfold GetAnalysis.default_recommendations.
    rewrite !elem_of_cons, elem_of_nil. intros H.
    repeat (destruct H as [H|H]; [discriminate H|]). exact H.
  - rewrite <- E in H. apply scan_recommendations_long in H.
    simpl in H. lia.
Qed.

(** A piece that the scan of the text yields is reported when the scan
    yields at most five different pieces. *)
Lemma extract_missing_skills_keeps (set_iter : gset string -> list string)
    (analysis_text skill : string) :
  set_order set_iter ->
  skill ∈ GetAnalysis.scan_skills analysis_text ->
  (size (list_to_set (GetAnalysis.scan_skills analysis_text) : gset string)
   <= 5)%nat ->
  skill ∈ GetAnalysis.extract_missing_skills set_iter analysis_text.
Proof.
  intros Hord Hin Hsize. unfold GetAnalysis.extract_missing_skills.
  destruct (GetAnalysis.scan_skills analysis_text) as [|s0 ss] eqn:E.
  { inversion Hin. }
  rewrite take_ge by (rewrite set_order_length by exact Hord; exact Hsize).
  apply set_order_elem_of; [exact Hord|].
  apply elem_of_list_to_set. exact Hin.
Qed.

(** C4: the missing-skills list can contain the empty string.  On the
    analysis text [missing: Python,, AWS.] the list holds the empty string
    whatever the iteration order of the interpreter is; it has at most five
    entries. *)
Theorem C4_missing_skills_empty_entry
    (set_iter : gset string -> list string) :
  set_order set_iter ->
  EmptyString
    ∈ GetAnalysis.extract_missing_skills set_iter "missing: Python,, AWS."
  /\ (length (GetAnalysis.extract_missing_skills set_iter
                "missing: Python,, AWS.") <= 5)%nat.
Proof.
  intros Hord. split; [|apply extract_missing_skills_length].
  apply extract_missing_skills_keeps; [exact Hord| |].
  - vm_compute. repeat constructor.
  - vm_compute. lia.
Qed.

Lemma C4_missing_skills_empty_entry_witness :
  set_order elements
  /\ EmptyString
       ∈ GetAnalysis.extract_missing_skills elements "missing: Python,, AWS.".
Proof.
  split.
  - intros X. reflexivity.
  - apply (C4_missing_skills_empty_entry elements). intros X. reflexivity.
Defined.




(** C10: the formatter is a total function of the stored result; a stored
    result with fields missing is formatted as the same result with match
    score 0, the empty analysis text and the mock flag false filled in.
    When the analysis text is missing or empty, the missing-skills list is
    empty and the recommendations are the five generic ones; when the match
    score and the mock flag are missing too, the confidence score is 45. *)
Theorem C10_formatter_defaults (set_iter : gset string -> list string)
    (now : string) (r : AnalysisResult) :
  set_order set_iter ->
  GetAnalysis.format_analysis_results set_iter now r
  = GetAnalysis.format_analysis_results set_iter now (Spec.with_defaults r)
  /\ GetAnalysis.match_score
       (GetAnalysis.format_analysis_results set_iter now r)
     = default 0 (ar_match_score r)
  /\ (default EmptyString (ar_analysis r) = EmptyString ->
      GetAnalysis.missing_skills
        (GetAnalysis.format_analysis_results set_iter now r) = []
      /\ GetAnalysis.recommendations
           (GetAnalysis.format_analysis_results set_iter now r)
         = GetAnalysis.default_recommendations
      /\ length GetAnalysis.default_recommendations = 5%nat
      /\ (ar_match_score r = None -> ar_is_mock r = None ->
          GetAnalysis.confidence_score
            (GetAnalysis.format_analysis_results set_iter now r) = 45)).
Proof.
  intros Hord. destruct r as [ms text ts mock].
  unfold GetAnalysis.format_analysis_results, Spec.with_defaults. simpl.
  split.
  { unfold GetAnalysis.calculate_confidence_score. simpl.
    destruct ms, text, mock; reflexivity. }
  split; [destruct ms; reflexivity|].
  intros Htext.
  replace (get text EmptyString) with EmptyString
    by (destruct text; simpl in *; congruence).
  split.
  { unfold GetAnalysis.extract_missing_skills.
    replace (GetAnalysis.scan_skills EmptyString) with (@nil string)
      by (vm_compute; reflexivity).
    simpl. rewrite set_order_empty by exact Hord. reflexivity. }
  split; [vm_compute; reflexivity|].
  split; [reflexivity|].
  intros -> ->. unfold GetAnalysis.calculate_confidence_score. simpl.
  replace (get text EmptyString) with EmptyString
    by (destruct text; simpl in *; congruence).
  reflexivity.
Qed.

Lemma C10_formatter_defaults_witness :
  set_order elements
  /\ GetAnalysis.format_analysis_results elements "2024-01-02T00:00:00"
       empty_result
     = GetAnalysis.mkFormattedResult 0 []
         GetAnalysis.default_recommendations 45 "2024-01-02T00:00:00".
Proof.
  split.
  - intros X. reflexivity.
  - destruct (C10_formatter_defaults elements "2024-01-02T00:00:00"
                empty_result) as (_ & Hs & H).
    + intros X. reflexivity.
    + destruct (H eq_refl) as (Hm & Hr & _ & Hc).
      specialize (Hc eq_refl eq_refl).
      destruct (GetAnalysis.format_analysis_results elements
                  "2024-01-02T00:00:00" empty_result) as [a b c d e] eqn:E.
      simpl in *. subst.
      apply (f_equal GetAnalysis.analysis_timestamp) in E. simpl in E.
      rewrite <- E. reflexivity.
Defined.

(** ** The submission handler *)



(** C7: a submission whose body lacks one of the fields [analysis_id],
    [resume_text] and [job_description] is answered with status 500, the
    error being the name of the first missing field between single quotes;
    nothing is written. *)
Theorem C7_missing_field_status (env : Aws.Env)
    (d : gmap string SubmitAnalysis.pyval) (w : Aws.World) :
  d !! "analysis_id" = None \/ d !! "resume_text" = None
  \/ d !! "job_description" = None ->
  exists key : string,
    key ∈ ["analysis_id"; "resume_text"; "job_description"]
    /\ d !! key = None
    /\ SubmitAnalysis.lambda_handler env (SubmitAnalysis.Fields d) w
       = (Aws.Ret (mkResponse 500 []
                     (JObj [("error", JStr ("'" +:+ key +:+ "'"))])), w).
Proof.
  intros H. unfold SubmitAnalysis.lambda_handler, SubmitAnalysis.item.
  destruct (d !! "analysis_id") as [a|] eqn:Ha.
  2:{ exists "analysis_id". split; [repeat constructor|]. split; [exact Ha|].
      reflexivity. }
  destruct (d !! "resume_text") as [rt|] eqn:Hr.
  2:{ exists "resume_text". split; [repeat constructor|]. split; [exact Hr|].
      reflexivity. }
  destruct (d !! "job_description") as [jd|] eqn:Hj.
  2:{ exists "job_description". split; [repeat constructor|]. split; [exact Hj|].
      reflexivity. }
  destruct H as [H|[H|H]]; discriminate H.
Qed.

Lemma C7_missing_field_status_witness :
  Sample.body_without_job !! "job_description" = None
  /\ exists r : Response,
       SubmitAnalysis.lambda_handler Sample.env
         (SubmitAnalysis.Fields Sample.body_without_job) Sample.empty_world
       = (Aws.Ret r, Sample.empty_world)
       /\ statusCode r = 500.
Proof.
  split; [vm_compute; reflexivity|].
  destruct (C7_missing_field_status Sample.env Sample.body_without_job
              Sample.empty_world) as (key & _ & _ & Hrun).
  - right. right. vm_compute. reflexivity.
  - eexists. split; [exact Hrun|]. reflexivity.
Defined.

(** ** The processing handler *)

(** C8 (as stated, refuted): when the update of the record to [PROCESSING]
    fails, the handler stops.  In the sample run whose first external call
    fails, the response has status 500, the record is marked [FAILED] and
    the only calls attempted are the two updates: no document is read. *)
Lemma C8_processing_update_failure_stops :
  Aws.fault Sample.env_first_call_fails (length (Aws.trace Sample.submitted))
  = Some "ThrottlingException"
  /\ exists w' : Aws.World,
       ProcessAnalysis.lambda_handler Sample.env_first_call_fails
         Sample.event Sample.submitted
       = (Aws.Ret (mkResponse 500 []
                     (JObj [("error", JStr "ThrottlingException")])), w')
       /\ Aws.trace w'
          = [Aws.UpdateItem "a1" "PROCESSING"; Aws.UpdateItem "a1" "FAILED"]
       /\ (Aws.table w' !! "a1") ≫= it_status = Some "FAILED"
       /\ (Aws.table w' !! "a1") ≫= it_analysis_result = None.
Proof.
  split; [reflexivity|].
  eexists. split; [vm_compute; reflexivity|].
  split; [reflexivity|]. split; vm_compute; reflexivity.
Qed.

(** C8 (amended): the transition to [PROCESSING] is not best-effort.  If
    that update fails with error [e], the handler attempts to mark the
    record [FAILED] with [e] (this second update is the best-effort one:
    its failure is ignored) and returns status 500 with [e]; the only
    external calls of the run are these two updates, so the documents are
    neither read nor analysed, and the Blob Store is unchanged. *)
Theorem C8_processing_update_failure_aborts (env : Aws.Env)
    (event : gmap string string) (analysis_id e : string) (w : Aws.World) :
  event !! "analysis_id" = Some analysis_id ->
  is_Some (Aws.environ env !! "TRACKING_TABLE") ->
  is_Some (Aws.environ env !! "RAW_INPUTS_BUCKET") ->
  Aws.fault env (length (Aws.trace w)) = Some e ->
  exists w' : Aws.World,
    ProcessAnalysis.lambda_handler env event w
    = (Aws.Ret (mkResponse 500 [] (JObj [("error", JStr e)])), w')
    /\ Aws.trace w'
       = Aws.trace w ++ [ Aws.UpdateItem analysis_id "PROCESSING";
                          Aws.UpdateItem analysis_id "FAILED" ]
    /\ Aws.s3 w' = Aws.s3 w
    /\ Aws.invoked w' = Aws.invoked w
    /\ (forall c : Aws.call,
          c ∈ Aws.trace w' -> c ∉ Aws.trace w ->
          exists status : string, c = Aws.UpdateItem analysis_id status)
    /\ match Aws.fault env (S (length (Aws.trace w))) with
       | Some _ => Aws.table w' = Aws.table w
       | None =>
           Aws.table w'
           = <[analysis_id :=
                 ProcessAnalysis.set_failed e
                   (Aws.isoformat env (Aws.time env (S (Aws.ticks w))))
                   (default empty_item (Aws.table w !! analysis_id))]>
               (Aws.table w)
       end.
Proof.
  intros Hid [tbl Htbl] [bkt Hbkt] Hfault.
  destruct w as [s3 table invoked trace ticks]. simpl in Hfault |- *.
  unfold ProcessAnalysis.lambda_handler. rewrite Hid, Htbl.
  unfold ProcessAnalysis.process. run. rewrite Hbkt. simpl.
  rewrite Hfault. simpl.
  rewrite length_app, Nat.add_1_r.
  assert (Hcalls : forall c : Aws.call,
            c ∈ (trace ++ [Aws.UpdateItem analysis_id "PROCESSING"])
                 ++ [Aws.UpdateItem analysis_id "FAILED"] ->
            c ∉ trace ->
            exists status : string, c = Aws.UpdateItem analysis_id status).
  { intros c. rewrite !elem_of_app, !list_elem_of_singleton.
    intros [[Hc|Hc]|Hc] Hn; [tauto|eauto|eauto]. }
  destruct (Aws.fault env (S (length trace))) as [e2|]; simpl;
    eexists; (split; [reflexivity|]); simpl;
    rewrite <- app_assoc; simpl;
    (split; [reflexivity|]); (split; [reflexivity|]);
    (split; [reflexivity|]);
    (split; [rewrite <- app_assoc in Hcalls; exact Hcalls|reflexivity]).
Qed.

Lemma C8_processing_update_failure_aborts_witness :
  exists w' : Aws.World,
    ProcessAnalysis.lambda_handler Sample.env_first_call_fails Sample.event
      Sample.submitted
    = (Aws.Ret (mkResponse 500 []
                  (JObj [("error", JStr "ThrottlingException")])), w')
    /\ Aws.s3 w' = Aws.s3 Sample.submitted.
Proof.
  destruct (C8_processing_update_failure_aborts Sample.env_first_call_fails
              Sample.event "a1" "ThrottlingException" Sample.submitted)
    as (w' & Hrun & _ & Hs3 & _).
  - vm_compute. reflexivity.
  - eexists. vm_compute. reflexivity.
  - eexists. vm_compute. reflexivity.
  - reflexivity.
  - exists w'. split; [exact Hrun|exact Hs3].
Defined.

(** C9: the match score stored on a [COMPLETED] record is not bounded by
    100 on the inference path.  The score extracted from the agent reply
    [Match score: 150] is 150, and the run of the handler with this reply
    completes with status 200 and stores 150 as the match score of the
    record.  On the fallback path the score is between 0 and 100. *)
Theorem C9_stored_match_score_above_scale :
  ProcessAnalysis.extract_match_score "Match score: 150" = 150
  /\ (exists (r : Response) (w' : Aws.World),
        ProcessAnalysis.lambda_handler Sample.env_agent Sample.event
          Sample.submitted = (Aws.Ret r, w')
        /\ statusCode r = 200
        /\ (Aws.table w' !! "a1") ≫= it_status = Some "COMPLETED"
        /\ ((Aws.table w' !! "a1") ≫= it_analysis_result) ≫= ar_match_score
           = Some 150)
  /\ (forall (set_iter : gset string -> list string)
             (now resume_text job_description : string),
        exists score : Z,
          ar_match_score
            (ProcessAnalysis.generate_mock_analysis set_iter now
               resume_text job_description) = Some score
          /\ 0 <= score <= 100).
Proof.
  split; [vm_compute; reflexivity|]. split.
  - eexists _, _. split; [vm_compute; reflexivity|].
    split; [reflexivity|]. split; vm_compute; reflexivity.
  - intros set_iter now resume_text job_description.
    eexists. split; [reflexivity|]. unfold ProcessAnalysis.score. lia.
Qed.

(** * Further properties *)

(** ** The confidence score *)

(** X1: a higher match score never lowers the confidence score, and a mock
    result never has a higher confidence score than the same result not
    marked as mock. *)
Theorem confidence_score_monotone (analysis_result : AnalysisResult)
    (score1 score2 : Z) (is_mock : bool) :
  score1 <= score2 ->
  GetAnalysis.calculate_confidence_score analysis_result score1 is_mock
  <= GetAnalysis.calculate_confidence_score analysis_result score2 is_mock
  /\ GetAnalysis.calculate_confidence_score analysis_result score1 true
     <= GetAnalysis.calculate_confidence_score analysis_result score1 false.
Proof.
  intros H. unfold GetAnalysis.calculate_confidence_score.
  set (n := Z.of_nat (String.length _)).
  destruct (Z.leb_spec 80 score1), (Z.leb_spec 60 score1),
    (Z.leb_spec 40 score1), (Z.leb_spec 80 score2), (Z.leb_spec 60 score2),
    (Z.leb_spec 40 score2), is_mock, (Z.ltb_spec 500 n), (Z.ltb_spec n 100);
    lia.
Qed.

Lemma confidence_score_monotone_witness :
  GetAnalysis.calculate_confidence_score empty_result 50 false
  <= GetAnalysis.calculate_confidence_score empty_result 90 false.
Proof.
  destruct (confidence_score_monotone empty_result 50 90 false) as [H _].
  - lia.
  - exact H.
Defined.

(** ** The pattern matcher *)

Lemma star_some {R : Type} (cls : ascii -> bool) (k : string -> option R)
    (s : string) (r : R) :
  Py.star cls k s = Some r -> exists s' : string, k s' = Some r.
Proof.
  induction s as [|c s IH]; simpl; [eauto|].
  destruct (cls c); [|eauto].
  destruct (Py.star cls k s) as [r'|] eqn:E; [|eauto].
  intros [= ->]. apply IH. reflexivity.
Qed.

Lemma all_chars_rev_app (p : ascii -> bool) (s acc : string) :
  Text.all_chars p (String.rev_app s acc)
  = Text.all_chars p s && Text.all_chars p acc.
Proof.
  revert acc. induction s as [|c s IH]; intros acc; simpl; [reflexivity|].
  rewrite IH. simpl. destruct (p c), (Text.all_chars p s); reflexivity.
Qed.

Lemma all_chars_rev (p : ascii -> bool) (s : string) :
  Text.all_chars p (String.rev s) = Text.all_chars p s.
Proof.
  unfold String.rev. rewrite all_chars_rev_app. simpl. apply andb_true_r.
Qed.

Lemma rev_app_nonempty (s acc : string) :
  acc <> EmptyString -> String.rev_app s acc <> EmptyString.
Proof.
  revert acc. induction s as [|c s IH]; intros acc H; simpl; [exact H|].
  apply IH. discriminate.
Qed.

Lemma rev_nonempty (c : ascii) (s : string) :
  String.rev (String c s) <> EmptyString.
Proof. unfold String.rev. simpl. apply rev_app_nonempty. discriminate. Qed.

(** The capture handed to the continuation is made of characters of the
    class, and is not empty when the accumulator is not. *)
Lemma star_cap_some {R : Type} (cls : ascii -> bool)
    (k : string -> string -> option R) (acc s : string) (r : R) :
  Py.star_cap cls k acc s = Some r ->
  Text.all_chars cls acc = true ->
  acc <> EmptyString ->
  exists g rest : string,
    k g rest = Some r /\ Text.all_chars cls g = true /\ g <> EmptyString.
Proof.
  revert acc. induction s as [|c s IH]; intros acc; simpl.
  - intros H Hall Hne. exists (String.rev acc), EmptyString.
    rewrite all_chars_rev. destruct acc; [congruence|].
    split; [exact H|]. split; [exact Hall|]. apply rev_nonempty.
  - assert (Hstop : k (String.rev acc) (String c s) = Some r ->
              Text.all_chars cls acc = true -> acc <> EmptyString ->
              exists g rest : string,
                k g rest = Some r /\ Text.all_chars cls g = true
                /\ g <> EmptyString).
    { intros H Hall Hne. exists (String.rev acc), (String c s).
      rewrite all_chars_rev. destruct acc; [congruence|].
      split; [exact H|]. split; [exact Hall|]. apply rev_nonempty. }
    destruct (cls c) eqn:Ec; [|exact Hstop].
    destruct (Py.star_cap cls k (String c acc) s) as [r'|] eqn:E;
      [|exact Hstop].
    intros [= ->] Hall Hne. apply (IH (String c acc) E).
    + simpl. rewrite Ec, Hall. reflexivity.
    + discriminate.
Qed.

(** What a match reports: the capture it was given, when the pattern has
    no group, and otherwise the non-empty text of a group, made of
    characters of its class. *)
Lemma match_here_group (icase : bool) (pat : Py.pattern)
    (cap s g rest : string) :
  Py.match_here icase pat cap s = Some (g, rest) ->
  (g = cap /\ forall cls, ~ In (Py.Group cls) pat)
  \/ (exists cls, In (Py.Group cls) pat /\ g <> EmptyString
                  /\ Text.all_chars cls g = true).
Proof.
  revert cap s. induction pat as [|a pat IH]; intros cap s H.
  { simpl in H. injection H as <- <-. left. split; [reflexivity|].
    intros cls []. }
  assert (Hstep : forall cap' s', Py.match_here icase pat cap' s' = Some (g, rest) ->
            (forall cls, a <> Py.Group cls) ->
            (g = cap' /\ forall cls, ~ In (Py.Group cls) (a :: pat))
            \/ (exists cls, In (Py.Group cls) (a :: pat) /\ g <> EmptyString
                            /\ Text.all_chars cls g = true)).
  { intros cap' s' H' Ha. destruct (IH cap' s' H') as [[-> Hno]|(cls & Hin & Hg)].
    - left. split; [reflexivity|]. intros cls [Hc|Hc]; [exact (Ha cls Hc)|].
      exact (Hno cls Hc).
    - right. exists cls. split; [right; exact Hin|exact Hg]. }
  destruct a as [c|c|cls|cls|cls]; simpl in H.
  - destruct s as [|d s]; [discriminate|].
    destruct (Py.char_eq icase c d); [|discriminate].
    apply (Hstep _ _ H). discriminate.
  - assert (Hskip : Py.match_here icase pat cap s = Some (g, rest) ->
              (g = cap /\ forall cls, ~ In (Py.Group cls) (Py.Opt c :: pat))
              \/ (exists cls, In (Py.Group cls) (Py.Opt c :: pat)
                              /\ g <> EmptyString
                              /\ Text.all_chars cls g = true)).
    { intros H'. apply (Hstep _ _ H'). discriminate. }
    destruct s as [|d s]; [exact (Hskip H)|].
    destruct (Py.char_eq icase c d); [|exact (Hskip H)].
    destruct (Py.match_here icase pat cap s) as [r|] eqn:E; [|exact (Hskip H)].
    injection H as ->. apply (Hstep _ _ E). discriminate.
  - apply star_some in H as [s' H]. apply (Hstep _ _ H). discriminate.
  - destruct s as [|d s]; [discriminate|].
    destruct (cls d); [|discriminate].
    apply star_some in H as [s' H]. apply (Hstep _ _ H). discriminate.
  - destruct s as [|d s]; [discriminate|].
    destruct (cls d) eqn:Ed; [|discriminate].
    apply star_cap_some in H as (g0 & rest0 & H & Hall & Hne).
    + destruct (IH g0 rest0 H) as [[-> Hno]|(cls' & Hin & Hg)].
      * right. exists cls. split; [left; reflexivity|]. split; assumption.
      * right. exists cls'. split; [right; exact Hin|exact Hg].
    + simpl. rewrite Ed. reflexivity.
    + discriminate.
Qed.

Lemma findall_go_group (icase : bool) (pat : Py.pattern) (skip : nat)
    (s g : string) :
  g ∈ Py.findall_go icase pat skip s ->
  exists rest s' : string,
    Py.match_here icase pat EmptyString s' = Some (g, rest).
Proof.
  revert skip. induction s as [|c s IH]; intros skip; simpl.
  { intros H. inversion H. }
  destruct skip as [|n]; [|apply IH].
  destruct (Py.match_here icase pat EmptyString (String c s))
    as [[g0 rest0]|] eqn:E; [|apply IH].
  rewrite elem_of_cons. intros [->|H]; [eauto|]. exact (IH _ H).
Qed.

Lemma search_group (icase : bool) (pat : Py.pattern) (s g : string) :
  Py.search icase pat s = Some g ->
  exists rest s' : string,
    Py.match_here icase pat EmptyString s' = Some (g, rest).
Proof.
  induction s as [|c s IH]; simpl.
  - destruct (Py.match_here icase pat EmptyString EmptyString)
      as [[g0 rest0]|] eqn:E; [|discriminate].
    intros [= ->]. eauto.
  - destruct (Py.match_here icase pat EmptyString (String c s))
      as [[g0 rest0]|] eqn:E; [|exact IH].
    intros [= ->]. eauto.
Qed.

(** ** The score extracted from the reply of the agent *)

Lemma int_go_nonneg (s : string) (acc : Z) :
  Text.all_chars Py.is_digit s = true -> 0 <= acc -> 0 <= Py.int_go acc s.
Proof.
  revert acc. induction s as [|c s IH]; intros acc; simpl; [auto|].
  intros [Hc Hs]%andb_true_iff Hacc. apply IH; [exact Hs|].
  assert (0 <= Py.digit_val c); [|lia].
  revert Hc. unfold Py.is_digit, Py.digit_val.
  intros [H _]%andb_true_iff. apply Nat.leb_le in H. lia.
Qed.

Lemma first_match_group (pats : list Py.pattern) (text g : string) :
  ProcessAnalysis.first_match pats text = Some g ->
  exists (pat : Py.pattern) (rest s' : string),
    pat ∈ pats /\ Py.match_here false pat EmptyString s' = Some (g, rest).
Proof.
  induction pats as [|pat pats IH]; simpl; [discriminate|].
  destruct (Py.search false pat text) as [g0|] eqn:E.
  - intros [= ->]. apply search_group in E as (rest & s' & E).
    exists pat, rest, s'. split; [left|exact E].
  - intros H. destruct (IH H) as (pat' & rest & s' & Hin & E').
    exists pat', rest, s'. split; [right; exact Hin|exact E'].
Qed.

Lemma patterns_group (pat : Py.pattern) (cls : ascii -> bool) :
  pat ∈ ProcessAnalysis.patterns -> In (Py.Group cls) pat ->
  cls = Py.is_digit.
Proof.
  unfold ProcessAnalysis.patterns. rewrite !elem_of_cons, elem_of_nil.
  intros [->|[->|[->|[->|[]]]]]; simpl; intros H;
    repeat (destruct H as [H|H]; [congruence|]); destruct H.
Qed.

(** X4: the extracted score is never negative. *)
Theorem extract_match_score_nonneg (analysis_text : string) :
  0 <= ProcessAnalysis.extract_match_score analysis_text.
Proof.
  unfold ProcessAnalysis.extract_match_score.
  destruct (ProcessAnalysis.first_match _ _) as [g|] eqn:E; [|lia].
  apply first_match_group in E as (pat & rest & s' & Hin & E).
  apply match_here_group in E as [[-> Hno]|(cls & Hcls & _ & Hall)].
  - vm_compute. discriminate.
  - rewrite (patterns_group pat cls Hin Hcls) in Hall.
    apply int_go_nonneg; [exact Hall|lia].
Qed.

(** A pattern with a group on a class does not match in a text that has no
    character of the class. *)
Lemma star_none {R : Type} (cls : ascii -> bool) (p : ascii -> bool)
    (k : string -> option R) (s : string) :
  (forall s' : string, Text.all_chars p s' = true -> k s' = None) ->
  Text.all_chars p s = true -> Py.star cls k s = None.
Proof.
  intros Hk. induction s as [|c s IH]; simpl; [intros; apply Hk; reflexivity|].
  intros H. pose proof H as [Hc Hs]%andb_true_iff.
  rewrite (IH Hs). rewrite (Hk (String c s)) by exact H.
  destruct (cls c); reflexivity.
Qed.

Lemma star_cap_none {R : Type} (cls : ascii -> bool) (p : ascii -> bool)
    (k : string -> string -> option R) (acc s : string) :
  (forall g s' : string, Text.all_chars p s' = true -> k g s' = None) ->
  Text.all_chars p s = true -> Py.star_cap cls k acc s = None.
Proof.
  intros Hk. revert acc. induction s as [|c s IH]; intros acc; simpl;
    [intros; apply Hk; reflexivity|].
  intros H. pose proof H as [Hc Hs]%andb_true_iff.
  rewrite (IH _ Hs). rewrite (Hk _ (String c s)) by exact H.
  destruct (cls c); reflexivity.
Qed.

Lemma match_here_none (icase : bool) (pat : Py.pattern)
    (cls : ascii -> bool) (cap s : string) :
  In (Py.Group cls) pat ->
  Text.all_chars (fun c => negb (cls c)) s = true ->
  Py.match_here icase pat cap s = None.
Proof.
  revert cap s. induction pat as [|a pat IH]; intros cap s; [intros []|].
  intros [->|Hin] Hs.
  - simpl. destruct s as [|d s]; [reflexivity|].
    simpl in Hs. apply andb_true_iff in Hs as [Hd _].
    destruct (cls d); [discriminate|reflexivity].
  - destruct a as [c|c|cls'|cls'|cls']; simpl.
    + destruct s as [|d s]; [reflexivity|].
      simpl in Hs. apply andb_true_iff in Hs as [_ Hs].
      rewrite (IH _ _ Hin Hs). destruct (Py.char_eq icase c d); reflexivity.
    + rewrite (IH cap s Hin Hs).
      destruct s as [|d s]; [reflexivity|].
      simpl in Hs. apply andb_true_iff in Hs as [_ Hs].
      rewrite (IH _ _ Hin Hs). destruct (Py.char_eq icase c d); reflexivity.
    + apply (star_none cls' (fun c => negb (cls c))); [|exact Hs].
      intros s' Hs'. apply IH; assumption.
    + destruct s as [|d s]; [reflexivity|].
      simpl in Hs. apply andb_true_iff in Hs as [_ Hs].
      destruct (cls' d); [|reflexivity].
      apply (star_none cls' (fun c => negb (cls c))); [|exact Hs].
      intros s' Hs'. apply IH; assumption.
    + destruct s as [|d s]; [reflexivity|].
      simpl in Hs. apply andb_true_iff in Hs as [_ Hs].
      destruct (cls' d); [|reflexivity].
      apply (star_cap_none cls' (fun c => negb (cls c))); [|exact Hs].
      intros g s' Hs'. apply IH; assumption.
Qed.

Lemma search_none (icase : bool) (pat : Py.pattern) (cls : ascii -> bool)
    (s : string) :
  In (Py.Group cls) pat ->
  Text.all_chars (fun c => negb (cls c)) s = true ->
  Py.search icase pat s = None.
Proof.
  intros Hin. induction s as [|c s IH]; intros Hs; simpl.
  - rewrite (match_here_none icase pat cls _ _ Hin Hs). reflexivity.
  - rewrite (match_here_none icase pat cls _ _ Hin Hs).
    simpl in Hs. apply andb_true_iff in Hs as [_ Hs]. exact (IH Hs).
Qed.

Lemma is_digit_lower_char (c : ascii) :
  Py.is_digit (Py.lower_char c) = Py.is_digit c.
Proof.
  destruct c as [[|] [|] [|] [|] [|] [|] [|] [|]]; reflexivity.
Qed.

Lemma no_digit_lower (s : string) :
  Text.no_digit (Py.lower s) = Text.no_digit s.
Proof.
  unfold Text.no_digit. induction s as [|c s IH]; simpl; [reflexivity|].
  rewrite is_digit_lower_char, IH. reflexivity.
Qed.

(** X5: a reply without any digit gets the default score. *)
Theorem extract_match_score_default_75 (analysis_text : string) :
  Text.no_digit analysis_text = true ->
  ProcessAnalysis.extract_match_score analysis_text = 75.
Proof.
  intros H. rewrite <- no_digit_lower in H.
  unfold ProcessAnalysis.extract_match_score, ProcessAnalysis.patterns.
  unfold ProcessAnalysis.first_match.
  rewrite !(search_none false _ Py.is_digit _) ; try exact H;
    try reflexivity; simpl; tauto.
Qed.

Lemma extract_match_score_default_75_witness :
  ProcessAnalysis.extract_match_score "A strong match overall" = 75.
Proof.
  apply extract_match_score_default_75. reflexivity.
Defined.

(** ** The lists of the formatter *)

(** X2: the recommendations are between one and five, each longer than ten
    characters. *)
Theorem extract_recommendations_entries (analysis_text : string) :
  (1 <= length (GetAnalysis.extract_recommendations analysis_text) <= 5)%nat
  /\ forall r : string,
       r ∈ GetAnalysis.extract_recommendations analysis_text ->
       (10 < String.length r)%nat.
Proof.
  unfold GetAnalysis.extract_recommendations. split.
  - rewrite length_take.
    destruct (GetAnalysis.scan_recommendations analysis_text);
      [vm_compute; lia|cbn [length]; lia].
  - intros r H. apply elem_of_take_elem_of in H.
    destruct (GetAnalysis.scan_recommendations analysis_text) as [|r0 rs] eqn:E.
    + revert H. unfold GetAnalysis.default_recommendations.
      rewrite !elem_of_cons, elem_of_nil.
      intros [->|[->|[->|[->|[->|[]]]]]]; simpl; lia.
    + rewrite <- E in H. unfold GetAnalysis.scan_recommendations in H.
      apply list_elem_of_In, in_flat_map in H as (pat & _ & H).
      apply list_elem_of_In, list_elem_of_filter in H. tauto.
Qed.

Lemma all_chars_lstrip (p q : ascii -> bool) (s : string) :
  Text.all_chars p s = true -> Text.all_chars p (Py.lstrip q s) = true.
Proof.
  induction s as [|c s IH]; simpl; [auto|].
  intros H. destruct (q c); [|exact H].
  apply andb_true_iff in H as [_ H]. exact (IH H).
Qed.

Lemma all_chars_rstrip (p q : ascii -> bool) (s : string) :
  Text.all_chars p s = true -> Text.all_chars p (Py.rstrip q s) = true.
Proof.
  induction s as [|c s IH]; simpl; [auto|].
  intros [Hc Hs]%andb_true_iff. specialize (IH Hs).
  destruct (Py.rstrip q s) as [|d r].
  - destruct (q c); simpl; [reflexivity|]. rewrite Hc. reflexivity.
  - change (Text.all_chars p (String c (String d r)) = true).
    simpl. simpl in IH. rewrite Hc, IH. reflexivity.
Qed.

Lemma all_chars_strip_chars (p q : ascii -> bool) (s : string) :
  Text.all_chars p s = true -> Text.all_chars p (Py.strip_chars q s) = true.
Proof.
  intros H. unfold Py.strip_chars. apply all_chars_rstrip, all_chars_lstrip, H.
Qed.

(** The pieces of a split are made of the characters of the text other
    than the separator. *)
Lemma all_chars_split_on (p : ascii -> bool) (sep : ascii) (s piece : string) :
  Text.all_chars p s = true ->
  piece ∈ Py.split_on sep s ->
  Text.all_chars (fun c => p c && negb (Ascii.eqb c sep)) piece = true.
Proof.
  revert piece. induction s as [|c s IH]; intros piece; simpl.
  - intros _ ->%list_elem_of_singleton. reflexivity.
  - intros [Hc Hs]%andb_true_iff.
    destruct (Ascii.eqb c sep) eqn:Ec.
    + rewrite elem_of_cons. intros [->|H]; [reflexivity|]. exact (IH _ Hs H).
    + destruct (Py.split_on sep s) as [|w ws] eqn:E.
      * intros ->%list_elem_of_singleton. simpl. rewrite Hc, Ec. reflexivity.
      * rewrite elem_of_cons. intros [->|H].
        -- simpl. rewrite Hc, Ec. simpl. apply (IH w Hs). left.
        -- apply (IH _ Hs). right. exact H.
Qed.

Lemma all_chars_plain (g : string) :
  Text.all_chars (fun c => GetAnalysis.not_dot c && negb (Ascii.eqb c ","))
    g = Text.all_chars Text.plain g.
Proof. reflexivity. Qed.

(** A piece the scan yields has neither a period nor a comma. *)
Lemma scan_skills_plain (analysis_text skill : string) :
  skill ∈ GetAnalysis.scan_skills analysis_text ->
  Text.all_chars Text.plain skill = true.
Proof.
  unfold GetAnalysis.scan_skills.
  intros (pat & Hpat & H)%list_elem_of_In%in_flat_map.
  apply in_flat_map in H as (m & Hm & H).
  unfold GetAnalysis.skills_of_match in H.
  apply in_map_iff in H as (piece & <- & H).
  apply list_elem_of_In in Hm, H.
  apply findall_go_group in Hm as (rest & s' & Hm).
  apply match_here_group in Hm as [[-> Hno]|(cls & Hcls & _ & Hall)].
  { exfalso. revert Hpat. unfold GetAnalysis.skill_patterns. simpl.
    intros [<-|[<-|[<-|[<-|[<-|[]]]]]]; apply (Hno GetAnalysis.not_dot);
      simpl; repeat (first [left; reflexivity|right]). }
  assert (cls = GetAnalysis.not_dot) as ->.
  { revert Hpat Hcls. unfold GetAnalysis.skill_patterns. simpl.
    intros [<-|[<-|[<-|[<-|[<-|[]]]]]]; simpl; intros Hc;
      repeat (destruct Hc as [Hc|Hc];
              [first [discriminate Hc|injection Hc as <-; reflexivity]|]);
      destruct Hc. }
  apply all_chars_strip_chars, all_chars_strip_chars.
  rewrite <- all_chars_plain. eapply all_chars_split_on; eassumption.
Qed.

(** X3: under any iteration order the missing skills are pairwise different,
    each without period or comma, and each a piece of the text or one of
    the three skills suggested for a mock analysis. *)
Theorem extract_missing_skills_entries
    (set_iter : gset string -> list string) (analysis_text : string) :
  set_order set_iter ->
  NoDup (GetAnalysis.extract_missing_skills set_iter analysis_text)
  /\ forall skill : string,
       skill ∈ GetAnalysis.extract_missing_skills set_iter analysis_text ->
       Text.all_chars Text.plain skill = true
       /\ (skill ∈ GetAnalysis.scan_skills analysis_text
           \/ skill ∈ ["Python"; "AWS"; "Docker"]).
Proof.
  intros Hord. unfold GetAnalysis.extract_missing_skills. split.
  - eapply sublist_NoDup; [|apply sublist_take].
    rewrite (Hord _). apply NoDup_elements.
  - intros skill H. apply elem_of_take_elem_of in H.
    rewrite (Hord _) in H. apply elem_of_elements, elem_of_list_to_set in H.
    destruct (GetAnalysis.scan_skills analysis_text) as [|s0 ss] eqn:E.
    + destruct (Py.contains "mock" (Py.lower analysis_text)).
      * split; [|right; exact H]. revert H.
        rewrite !elem_of_cons, elem_of_nil.
        intros [->|[->|[->|[]]]]; reflexivity.
      * inversion H.
    + split; [|left; exact H].
      apply (scan_skills_plain analysis_text). rewrite E. exact H.
Qed.

Lemma extract_missing_skills_entries_witness :
  NoDup (GetAnalysis.extract_missing_skills elements
           "Missing: Docker, Docker, SQL.").
Proof.
  apply (extract_missing_skills_entries elements). intros X. reflexivity.
Defined.

(** ** The processing handler *)

Lemma string_length_app (s t : string) :
  String.length (s +:+ t) = (String.length s + String.length t)%nat.
Proof. induction s as [|c s IH]; simpl; [reflexivity|]. rewrite IH. reflexivity. Qed.

(** The two documents of an analysis are stored under different keys. *)
Lemma resume_key_jd_key (analysis_id : string) :
  ProcessAnalysis.resume_key analysis_id <> ProcessAnalysis.jd_key analysis_id.
Proof.
  unfold ProcessAnalysis.resume_key, ProcessAnalysis.jd_key. intros H.
  apply (f_equal String.length) in H. rewrite !string_length_app in H.
  simpl in H. lia.
Qed.

Ltac handler_cases :=
  repeat match goal with
    | |- context [match ?x with _ => _ end] =>
        match type of x with
        | option _ => destruct x eqn:?
        | bool => destruct x eqn:?
        | sumbool _ _ => destruct x
        end; simpl
    end.

(** X7: the processing handler always returns a response, with status 200
    or 500; it writes neither to the Blob Store nor to any record other
    than the one of the analysis, and triggers nothing. *)
Theorem process_handler_frame (env : Aws.Env) (event : gmap string string)
    (w : Aws.World) :
  exists (r : Response) (w' : Aws.World),
    ProcessAnalysis.lambda_handler env event w = (Aws.Ret r, w')
    /\ (statusCode r = 200 \/ statusCode r = 500)
    /\ Aws.s3 w' = Aws.s3 w
    /\ Aws.invoked w' = Aws.invoked w
    /\ forall key : string,
         event !! "analysis_id" <> Some key ->
         Aws.table w' !! key = Aws.table w !! key.
Proof.
  destruct w as [s3 table invoked trace ticks].
  unfold ProcessAnalysis.lambda_handler.
  destruct (event !! "analysis_id") as [analysis_id|];
    [|eexists _, _; split; [reflexivity|]; simpl; auto 10].
  destruct (Aws.environ env !! "TRACKING_TABLE") as [tbl|];
    [|eexists _, _; split; [reflexivity|]; simpl; auto 10].
  unfold ProcessAnalysis.process, ProcessAnalysis.fail,
    ProcessAnalysis.invoke_bedrock_agent.
  run. simpl.
  handler_cases;
    (eexists _, _; split; [reflexivity|]); simpl;
    (split; [auto|]); (split; [reflexivity|]); (split; [reflexivity|]);
    intros key Hkey; rewrite ?lookup_insert_ne by congruence; reflexivity.
Qed.

(** ** The fallback analysis seen through the formatter *)

(** The text of the fallback analysis is longer than 500 characters. *)
Lemma mock_text_length (set_iter : gset string -> list string)
    (mock_score : Z) (common_words : gset string) :
  (500 < String.length
           (ProcessAnalysis.mock_text set_iter mock_score common_words))%nat.
Proof.
  unfold ProcessAnalysis.mock_text, ProcessAnalysis.nl.
  cbn [Py.join]. rewrite !string_length_app. cbn [String.length]. lia.
Qed.

(** X6: a result of the fallback path is formatted with its own match score
    and timestamp and with a confidence score of 70, 60, 55 or 40 for a
    match score of at least 80, at least 60, at least 40 or below 40. *)
Theorem format_mock_analysis (set_iter set_iter' : gset string -> list string)
    (now now' resume_text job_description : string) :
  GetAnalysis.match_score
    (GetAnalysis.format_analysis_results set_iter' now'
       (ProcessAnalysis.generate_mock_analysis set_iter now resume_text
          job_description))
  = ProcessAnalysis.score
      (ProcessAnalysis.common resume_text job_description)
  /\ GetAnalysis.analysis_timestamp
       (GetAnalysis.format_analysis_results set_iter' now'
          (ProcessAnalysis.generate_mock_analysis set_iter now resume_text
             job_description))
     = now
  /\ GetAnalysis.confidence_score
       (GetAnalysis.format_analysis_results set_iter' now'
          (ProcessAnalysis.generate_mock_analysis set_iter now resume_text
             job_description))
     = (if 80 <=? ProcessAnalysis.score
                    (ProcessAnalysis.common resume_text job_description)
        then 70
        else if 60 <=? ProcessAnalysis.score
                         (ProcessAnalysis.common resume_text job_description)
        then 60
        else if 40 <=? ProcessAnalysis.score
                         (ProcessAnalysis.common resume_text job_description)
        then 55
        else 40).
Proof.
  split; [reflexivity|]. split; [reflexivity|].
  unfold GetAnalysis.format_analysis_results,
    ProcessAnalysis.generate_mock_analysis,
    GetAnalysis.calculate_confidence_score.
  cbn [ar_match_score ar_analysis ar_timestamp ar_is_mock get
       GetAnalysis.confidence_score].
  set (score := ProcessAnalysis.score _).
  pose proof (mock_text_length set_iter score
                (ProcessAnalysis.common resume_text job_description)) as Hlen.
  set (n := String.length _) in *.
  destruct (Z.ltb_spec 500 (Z.of_nat n)); [|lia].
  destruct (Z.leb_spec 80 score), (Z.leb_spec 60 score),
    (Z.leb_spec 40 score); lia.
Qed.

(** X8: a run that ends with status 200 has read both documents and left the
    record [COMPLETED] with the result the response carries: on the agent
    path the reply of the agent with the score extracted from it and no
    mock flag, otherwise the fallback analysis of the two documents. *)
Theorem process_handler_completed (env : Aws.Env)
    (event : gmap string string) (w w' : Aws.World) (r : Response) :
  ProcessAnalysis.lambda_handler env event w = (Aws.Ret r, w') ->
  statusCode r = 200 ->
  exists (analysis_id resume_text job_description : string) (item : Item)
         (result : AnalysisResult),
    event !! "analysis_id" = Some analysis_id
    /\ Aws.s3 w !! ProcessAnalysis.resume_key analysis_id = Some resume_text
    /\ Aws.s3 w !! ProcessAnalysis.jd_key analysis_id = Some job_description
    /\ Aws.table w' !! analysis_id = Some item
    /\ it_status item = Some "COMPLETED"
    /\ it_analysis_result item = Some result
    /\ body r = JObj [ ("status", JStr "completed");
                       ("analysis_id", JStr analysis_id);
                       ("result", result_json result) ]
    /\ (if ProcessAnalysis.agent_configured env
        then ar_analysis result
             = Some (String.concat EmptyString
                       (Aws.agent env
                          (ProcessAnalysis.prompt resume_text
                             job_description)))
             /\ ar_match_score result
                = Some (ProcessAnalysis.extract_match_score
                          (String.concat EmptyString
                             (Aws.agent env
                                (ProcessAnalysis.prompt resume_text
                                   job_description))))
             /\ ar_is_mock result = None
        else exists now : string,
               result
               = ProcessAnalysis.generate_mock_analysis (Aws.set_iter env)
                   now resume_text job_description).
Proof.
  destruct w as [s3 table invoked trace ticks].
  unfold ProcessAnalysis.lambda_handler.
  destruct (event !! "analysis_id") as [analysis_id|];
    [|intros [= <- <-]; discriminate].
  destruct (Aws.environ env !! "TRACKING_TABLE") as [tbl|];
    [|intros [= <- <-]; discriminate].
  unfold ProcessAnalysis.process, ProcessAnalysis.fail,
    ProcessAnalysis.invoke_bedrock_agent.
  run. simpl.
  handler_cases; intros [= <- <-]; simpl; try discriminate; intros _;
    (eexists _, _, _, _, _; split; [reflexivity|]);
    (split; [eassumption|]); (split; [eassumption|]);
    (split; [apply lookup_insert_eq|]); simpl; eauto 10.
Qed.

Lemma process_handler_completed_witness :
  exists (item : Item) (result : AnalysisResult),
    Aws.table (ProcessAnalysis.lambda_handler Sample.env Sample.event
                 Sample.submitted).2 !! "a1" = Some item
    /\ it_status item = Some "COMPLETED"
    /\ it_analysis_result item = Some result
    /\ ar_match_score result = Some 15.
Proof.
  destruct (ProcessAnalysis.lambda_handler Sample.env Sample.event
              Sample.submitted) as [[r|e] w'] eqn:Hrun;
    [|vm_compute in Hrun; discriminate Hrun].
  destruct (process_handler_completed Sample.env Sample.event
              Sample.submitted w' r Hrun)
    as (id & rt & jd & item & result & Hid & Hrt & Hjd & Hitem & Hst & Hres
        & _ & Hmock).
  - vm_compute in Hrun. injection Hrun as <- _. reflexivity.
  - injection Hid as <-. exists item, result.
    split; [exact Hitem|]. split; [exact Hst|]. split; [exact Hres|].
    vm_compute in Hrt, Hjd. injection Hrt as <-. injection Hjd as <-.
    change (ProcessAnalysis.agent_configured Sample.env) with false in Hmock.
    destruct Hmock as [now ->]. vm_compute. reflexivity.
Defined.

(** X9: a run that does not end with status 200 leaves the stored result of
    every record as it was. *)
Theorem process_handler_failed (env : Aws.Env) (event : gmap string string)
    (w w' : Aws.World) (r : Response) :
  ProcessAnalysis.lambda_handler env event w = (Aws.Ret r, w') ->
  statusCode r <> 200 ->
  forall key : string,
    (Aws.table w' !! key) ≫= it_analysis_result
    = (Aws.table w !! key) ≫= it_analysis_result.
Proof.
  destruct w as [s3 table invoked trace ticks].
  unfold ProcessAnalysis.lambda_handler.
  destruct (event !! "analysis_id") as [analysis_id|];
    [|intros [= <- <-]; reflexivity].
  destruct (Aws.environ env !! "TRACKING_TABLE") as [tbl|];
    [|intros [= <- <-]; reflexivity].
  unfold ProcessAnalysis.process, ProcessAnalysis.fail,
    ProcessAnalysis.invoke_bedrock_agent.
  run. simpl.
  handler_cases; intros [= <- <-]; simpl; try congruence; intros _ key;
    (destruct (decide (key = analysis_id)) as [->|Hne];
     [rewrite ?lookup_insert_eq; simpl; rewrite ?lookup_insert_eq; simpl;
      destruct (table !! analysis_id); reflexivity
     |rewrite ?lookup_insert_ne by congruence; reflexivity]).
Qed.

Lemma process_handler_failed_witness :
  (Aws.table (ProcessAnalysis.lambda_handler Sample.env_first_call_fails
                Sample.event Sample.submitted).2 !! "a1")
    ≫= it_analysis_result
  = (Aws.table Sample.submitted !! "a1") ≫= it_analysis_result.
Proof.
  destruct (ProcessAnalysis.lambda_handler Sample.env_first_call_fails
              Sample.event Sample.submitted) as [[r|e] w'] eqn:Hrun;
    [|vm_compute in Hrun; discriminate Hrun].
  apply (process_handler_failed Sample.env_first_call_fails Sample.event
           Sample.submitted w' r Hrun).
  vm_compute in Hrun. injection Hrun as <- _. discriminate.
Defined.



(** X11: when a document is missing from the Blob Store (and no call to the
    table fails), the run ends with status 500, the record is marked
    [FAILED] with the reason of the read failure after the words
    [Failed to retrieve input files], and the agent is not invoked. *)
Theorem process_handler_missing_document (env : Aws.Env)
    (event : gmap string string) (analysis_id : string) (w : Aws.World) :
  event !! "analysis_id" = Some analysis_id ->
  is_Some (Aws.environ env !! "TRACKING_TABLE") ->
  is_Some (Aws.environ env !! "RAW_INPUTS_BUCKET") ->
  Aws.s3 w !! ProcessAnalysis.resume_key analysis_id = None
  \/ Aws.s3 w !! ProcessAnalysis.jd_key analysis_id = None ->
  (forall n : nat, Aws.fault env n = None) ->
  exists (w' : Aws.World) (item : Item) (reason : string),
    ProcessAnalysis.lambda_handler env event w
    = (Aws.Ret (mkResponse 500 []
                  (JObj [("error",
                          JStr ("Failed to retrieve input files: "
                                +:+ reason))])), w')
    /\ Aws.table w' !! analysis_id = Some item
    /\ it_status item = Some "FAILED"
    /\ it_error_message item
       = Some ("Failed to retrieve input files: " +:+ reason)
    /\ it_analysis_result item
       = (Aws.table w !! analysis_id) ≫= it_analysis_result
    /\ forall prompt : string, Aws.InvokeAgent prompt ∈ Aws.trace w' ->
                               Aws.InvokeAgent prompt ∈ Aws.trace w.
Proof.
  intros Hid [tbl Htbl] [bkt Hbkt] Hmissing Hfault.
  destruct w as [s3 table invoked trace ticks]. simpl in Hmissing |- *.
  unfold ProcessAnalysis.lambda_handler. rewrite Hid, Htbl.
  unfold ProcessAnalysis.process, ProcessAnalysis.fail,
    ProcessAnalysis.invoke_bedrock_agent.
  run. rewrite Hbkt. simpl. rewrite !Hfault. simpl.
  destruct (s3 !! ProcessAnalysis.resume_key analysis_id) as [rt|] eqn:Hrt;
    simpl; rewrite ?Hfault; simpl.
  - destruct Hmissing as [Hm|Hm]; [discriminate|]. rewrite Hm. simpl.
    rewrite ?Hfault. simpl.
    eexists _, _, _. split; [reflexivity|]. simpl.
    split; [apply lookup_insert_eq|]. simpl.
    rewrite lookup_insert_eq. simpl.
    split; [reflexivity|]. split; [reflexivity|].
    split; [destruct (table !! analysis_id); reflexivity|].
    intros prompt. rewrite !elem_of_app, !list_elem_of_singleton.
    intros [[[[H|H]|H]|H]|H]; [exact H|discriminate..].
  - eexists _, _, _. split; [reflexivity|]. simpl.
    split; [apply lookup_insert_eq|]. simpl.
    rewrite lookup_insert_eq. simpl.
    split; [reflexivity|]. split; [reflexivity|].
    split; [destruct (table !! analysis_id); reflexivity|].
    intros prompt. rewrite !elem_of_app, !list_elem_of_singleton.
    intros [[[H|H]|H]|H]; [exact H|discriminate..].
Qed.

Lemma process_handler_missing_document_witness :
  exists (r : Response) (w' : Aws.World),
    ProcessAnalysis.lambda_handler Sample.env Sample.event Sample.empty_world
    = (Aws.Ret r, w')
    /\ statusCode r = 500.
Proof.
  destruct (process_handler_missing_document Sample.env Sample.event "a1"
              Sample.empty_world) as (w' & item & reason & Hrun & _).
  - vm_compute. reflexivity.
  - eexists. vm_compute. reflexivity.
  - eexists. vm_compute. reflexivity.
  - left. vm_compute. reflexivity.
  - intros n. reflexivity.
  - eexists _, w'. split; [exact Hrun|reflexivity].
Defined.

(** X12: when the call to the agent fails with error [e] (and no other call
    fails), the run ends with status 500 and the record is marked [FAILED]
    with [e] after the words [Bedrock Agent error]. *)
Theorem process_handler_agent_failure (env : Aws.Env)
    (event : gmap string string) (analysis_id resume_text job_description
    e : string) (w : Aws.World) :
  event !! "analysis_id" = Some analysis_id ->
  is_Some (Aws.environ env !! "TRACKING_TABLE") ->
  is_Some (Aws.environ env !! "RAW_INPUTS_BUCKET") ->
  ProcessAnalysis.agent_configured env = true ->
  Aws.s3 w !! ProcessAnalysis.resume_key analysis_id = Some resume_text ->
  Aws.s3 w !! ProcessAnalysis.jd_key analysis_id = Some job_description ->
  (forall n : nat,
     Aws.fault env n
     = if decide (n = length (Aws.trace w) + 3)%nat then Some e else None) ->
  exists (w' : Aws.World) (item : Item),
    ProcessAnalysis.lambda_handler env event w
    = (Aws.Ret (mkResponse 500 []
                  (JObj [("error", JStr ("Bedrock Agent error: " +:+ e))])),
       w')
    /\ Aws.table w' !! analysis_id = Some item
    /\ it_status item = Some "FAILED"
    /\ it_error_message item = Some ("Bedrock Agent error: " +:+ e)
    /\ it_analysis_result item
       = (Aws.table w !! analysis_id) ≫= it_analysis_result.
Proof.
  intros Hid [tbl Htbl] [bkt Hbkt] Hagent Hresume Hjd Hfault.
  destruct w as [s3 table invoked trace ticks].
  simpl in Hresume, Hjd, Hfault |- *.
  unfold ProcessAnalysis.lambda_handler. rewrite Hid, Htbl.
  unfold ProcessAnalysis.process, ProcessAnalysis.fail,
    ProcessAnalysis.invoke_bedrock_agent.
  run. rewrite Hbkt. simpl.
  repeat (first [ rewrite Hfault | rewrite Hresume | rewrite Hjd
                | rewrite Hagent ];
          rewrite ?length_app; simpl;
          try (destruct (decide _) as [?|?]; try lia; simpl)).
  eexists _, _. split; [reflexivity|]. simpl.
  split; [apply lookup_insert_eq|]. simpl. rewrite lookup_insert_eq. simpl.
  destruct (table !! analysis_id); auto.
Qed.

Lemma process_handler_agent_failure_witness :
  exists w' : Aws.World,
    ProcessAnalysis.lambda_handler Scenario.env_agent_fails Sample.event
      Sample.submitted
    = (Aws.Ret (mkResponse 500 []
                  (JObj [("error",
                          JStr "Bedrock Agent error: AccessDeniedException")])),
       w').
Proof.
  destruct (process_handler_agent_failure Scenario.env_agent_fails
              Sample.event "a1" "Python AWS microservices experience"
              "Python AWS microservices required" "AccessDeniedException"
              Sample.submitted) as (w' & item & Hrun & _).
  - vm_compute. reflexivity.
  - eexists. vm_compute. reflexivity.
  - eexists. vm_compute. reflexivity.
  - vm_compute. reflexivity.
  - vm_compute. reflexivity.
  - vm_compute. reflexivity.
  - intros n. reflexivity.
  - exists w'. exact Hrun.
Defined.

(** ** The submission handler *)

Ltac submit_cases :=
  repeat match goal with
    | |- context [match ?x with _ => _ end] =>
        match type of x with
        | option _ => destruct x eqn:?
        | bool => destruct x eqn:?
        | SubmitAnalysis.pyval => destruct x eqn:?
        end; simpl
    end.

(** X13: the submission handler always returns a response, with status 202,
    400 or 500.  The processing function is triggered exactly when the
    status is 202, and then both documents and the record of the analysis
    are stored; with status 400 nothing has changed. *)
Theorem submit_handler_outcomes (env : Aws.Env)
    (body : SubmitAnalysis.request_body) (w : Aws.World) :
  exists (r : Response) (w' : Aws.World),
    SubmitAnalysis.lambda_handler env body w = (Aws.Ret r, w')
    /\ (statusCode r = 202 \/ statusCode r = 400 \/ statusCode r = 500)
    /\ (statusCode r = 400 -> w' = w)
    /\ (statusCode r <> 202 -> Aws.invoked w' = Aws.invoked w)
    /\ (statusCode r = 202 ->
        exists analysis_id : string,
          Aws.invoked w' = Aws.invoked w ++ [analysis_id]
          /\ (Aws.table w' !! analysis_id) ≫= it_status = Some "SUBMITTED"
          /\ is_Some (Aws.s3 w' !! ProcessAnalysis.resume_key analysis_id)
          /\ is_Some (Aws.s3 w' !! ProcessAnalysis.jd_key analysis_id)).
Proof.
  destruct w as [s3 table invoked trace ticks].
  unfold SubmitAnalysis.lambda_handler, SubmitAnalysis.item,
    SubmitAnalysis.encode, SubmitAnalysis.get_estimated_completion.
  destruct body as [e|d]; run; simpl.
  { eexists _, _. split; [reflexivity|]. simpl.
    repeat split; auto; discriminate. }
  submit_cases;
    (eexists _, _; split; [reflexivity|]); simpl;
    (split; [auto|]); (split; [try discriminate; try reflexivity|]);
    (split; [try reflexivity; try congruence|]);
    try discriminate; intros _; eexists; (split; [reflexivity|]);
    (split; [rewrite lookup_insert_eq; reflexivity|]);
    (split; [rewrite lookup_insert_ne by apply not_eq_sym, resume_key_jd_key|]);
    rewrite lookup_insert_eq; eexists; reflexivity.
Qed.

(** X14: a submission with an identifier and two non-empty texts, in a
    configured deployment whose services answer, is accepted with status
    202: both texts are stored under the keys of the analysis, the record
    is created as [SUBMITTED] with the two paths, and the processing
    function is invoked once with the identifier. *)
Theorem submit_handler_accepts (env : Aws.Env)
    (d : gmap string SubmitAnalysis.pyval)
    (analysis_id resume_text job_description : string) (w : Aws.World) :
  d !! "analysis_id" = Some (SubmitAnalysis.PStr analysis_id) ->
  d !! "resume_text" = Some (SubmitAnalysis.PStr resume_text) ->
  d !! "job_description" = Some (SubmitAnalysis.PStr job_description) ->
  resume_text <> EmptyString ->
  job_description <> EmptyString ->
  is_Some (Aws.environ env !! "RAW_INPUTS_BUCKET") ->
  is_Some (Aws.environ env !! "TRACKING_TABLE") ->
  is_Some (Aws.environ env !! "PROCESS_FUNCTION") ->
  (forall n : nat, Aws.fault env n = None) ->
  exists w' : Aws.World,
    SubmitAnalysis.lambda_handler env (SubmitAnalysis.Fields d) w
    = (Aws.Ret
         (mkResponse 202 SubmitAnalysis.submitted_headers
            (JObj [ ("status", JStr "submitted");
                    ("analysis_id", JStr analysis_id);
                    ("estimated_completion",
                     JStr (Aws.isoformat env
                             (Aws.time env (S (Aws.ticks w)) + 30))) ])),
       w')
    /\ Aws.s3 w' !! ProcessAnalysis.resume_key analysis_id = Some resume_text
    /\ Aws.s3 w' !! ProcessAnalysis.jd_key analysis_id = Some job_description
    /\ (forall key : string,
          key <> ProcessAnalysis.resume_key analysis_id ->
          key <> ProcessAnalysis.jd_key analysis_id ->
          Aws.s3 w' !! key = Aws.s3 w !! key)
    /\ Aws.table w'
       = <[analysis_id :=
             mkItem (Some "SUBMITTED")
               (Some (Aws.isoformat env (Aws.time env (Aws.ticks w))))
               (Some (ProcessAnalysis.resume_key analysis_id))
               (Some (ProcessAnalysis.jd_key analysis_id))
               None None None None]> (Aws.table w)
    /\ Aws.invoked w' = Aws.invoked w ++ [analysis_id].
Proof.
  intros Hid Hrt Hjd Hrt_ne Hjd_ne [bkt Hbkt] [tbl Htbl] [fn Hfn] Hfault.
  destruct w as [s3 table invoked trace ticks].
  unfold SubmitAnalysis.lambda_handler, SubmitAnalysis.item,
    SubmitAnalysis.encode, SubmitAnalysis.get_estimated_completion.
  rewrite Hid, Hrt, Hjd. run. simpl.
  destruct resume_text as [|c1 rt]; [congruence|].
  destruct job_description as [|c2 jd]; [congruence|]. simpl.
  rewrite Hbkt, Htbl, Hfn, !Hfault. simpl.
  eexists. split; [reflexivity|]. simpl.
  split; [rewrite lookup_insert_ne by apply not_eq_sym, resume_key_jd_key;
          apply lookup_insert_eq|].
  split; [apply lookup_insert_eq|].
  split; [|split; reflexivity].
  intros key H1 H2. rewrite !lookup_insert_ne by congruence. reflexivity.
Qed.

Lemma submit_handler_accepts_witness :
  exists (r : Response) (w' : Aws.World),
    SubmitAnalysis.lambda_handler Sample.env
      (SubmitAnalysis.Fields Scenario.body_complete) Sample.empty_world
    = (Aws.Ret r, w')
    /\ statusCode r = 202
    /\ Aws.invoked w' = ["a1"].
Proof.
  destruct (submit_handler_accepts Sample.env Scenario.body_complete "a1"
              "Python AWS microservices experience"
              "Python AWS microservices required" Sample.empty_world)
    as (w' & Hrun & _ & _ & _ & _ & Hinv).
  - vm_compute. reflexivity.
  - vm_compute. reflexivity.
  - vm_compute. reflexivity.
  - discriminate.
  - discriminate.
  - eexists. vm_compute. reflexivity.
  - eexists. vm_compute. reflexivity.
  - eexists. vm_compute. reflexivity.
  - intros n. reflexivity.
  - eexists _, w'. split; [exact Hrun|]. split; [reflexivity|exact Hinv].
Defined.

(** X15: when the write of the tracking record fails, the submission is
    answered with status 500 while both documents stay in the Blob Store;
    no record exists and the processing function is not invoked. *)
Theorem submit_handler_record_failure (env : Aws.Env)
    (d : gmap string SubmitAnalysis.pyval)
    (analysis_id resume_text job_description e : string) (w : Aws.World) :
  d !! "analysis_id" = Some (SubmitAnalysis.PStr analysis_id) ->
  d !! "resume_text" = Some (SubmitAnalysis.PStr resume_text) ->
  d !! "job_description" = Some (SubmitAnalysis.PStr job_description) ->
  resume_text <> EmptyString ->
  job_description <> EmptyString ->
  is_Some (Aws.environ env !! "RAW_INPUTS_BUCKET") ->
  is_Some (Aws.environ env !! "TRACKING_TABLE") ->
  Aws.fault env (length (Aws.trace w)) = None ->
  Aws.fault env (S (length (Aws.trace w))) = None ->
  Aws.fault env (S (S (length (Aws.trace w)))) = Some e ->
  exists w' : Aws.World,
    SubmitAnalysis.lambda_handler env (SubmitAnalysis.Fields d) w
    = (Aws.Ret (mkResponse 500 [] (JObj [("error", JStr e)])), w')
    /\ Aws.s3 w' !! ProcessAnalysis.resume_key analysis_id = Some resume_text
    /\ Aws.s3 w' !! ProcessAnalysis.jd_key analysis_id = Some job_description
    /\ Aws.table w' = Aws.table w
    /\ Aws.invoked w' = Aws.invoked w.
Proof.
  intros Hid Hrt Hjd Hrt_ne Hjd_ne [bkt Hbkt] [tbl Htbl] Hf0 Hf1 Hf2.
  destruct w as [s3 table invoked trace ticks]. simpl in Hf0, Hf1, Hf2 |- *.
  unfold SubmitAnalysis.lambda_handler, SubmitAnalysis.item,
    SubmitAnalysis.encode, SubmitAnalysis.get_estimated_completion.
  rewrite Hid, Hrt, Hjd. run. simpl.
  destruct resume_text as [|c1 rt]; [congruence|].
  destruct job_description as [|c2 jd]; [congruence|]. simpl.
  rewrite Hbkt, Hf0. simpl. rewrite !length_app. simpl.
  rewrite !Nat.add_1_r. rewrite Hf1, Htbl. simpl.
  rewrite !length_app. simpl. rewrite !Nat.add_1_r. rewrite Hf2.
  eexists. split; [reflexivity|]. simpl.
  split; [rewrite lookup_insert_ne by apply not_eq_sym, resume_key_jd_key;
          apply lookup_insert_eq|].
  split; [apply lookup_insert_eq|]. split; reflexivity.
Qed.

Lemma submit_handler_record_failure_witness :
  exists w' : Aws.World,
    SubmitAnalysis.lambda_handler Scenario.env_record_write_fails
      (SubmitAnalysis.Fields Scenario.body_complete) Sample.empty_world
    = (Aws.Ret (mkResponse 500 []
                  (JObj [("error",
                          JStr "ProvisionedThroughputExceededException")])),
       w')
    /\ Aws.table w' = ∅
    /\ Aws.invoked w' = [].
Proof.
  destruct (submit_handler_record_failure Scenario.env_record_write_fails
              Scenario.body_complete "a1"
              "Python AWS microservices experience"
              "Python AWS microservices required"
              "ProvisionedThroughputExceededException" Sample.empty_world)
    as (w' & Hrun & _ & _ & Htable & Hinv).
  - vm_compute. reflexivity.
  - vm_compute. reflexivity.
  - vm_compute. reflexivity.
  - discriminate.
  - discriminate.
  - eexists. vm_compute. reflexivity.
  - eexists. vm_compute. reflexivity.
  - reflexivity.
  - reflexivity.
  - reflexivity.
  - exists w'. split; [exact Hrun|]. split; [exact Htable|exact Hinv].
Defined.

(** ** From submission to retrieval *)

(** X16: a submission that is accepted, processed on the fallback path and
    then retrieved is reported as completed, with the match score
    min(100, 5 n) for the n lowercase words the two texts share. *)
Theorem submit_process_retrieve (env : Aws.Env)
    (d : gmap string SubmitAnalysis.pyval)
    (analysis_id resume_text job_description : string) (w : Aws.World) :
  d !! "analysis_id" = Some (SubmitAnalysis.PStr analysis_id) ->
  d !! "resume_text" = Some (SubmitAnalysis.PStr resume_text) ->
  d !! "job_description" = Some (SubmitAnalysis.PStr job_description) ->
  analysis_id <> EmptyString ->
  resume_text <> EmptyString ->
  job_description <> EmptyString ->
  is_Some (Aws.environ env !! "RAW_INPUTS_BUCKET") ->
  is_Some (Aws.environ env !! "TRACKING_TABLE") ->
  is_Some (Aws.environ env !! "PROCESS_FUNCTION") ->
  ProcessAnalysis.agent_configured env = false ->
  (forall n : nat, Aws.fault env n = None) ->
  exists (r1 r2 r3 : Response) (w1 w2 w3 : Aws.World)
         (results : GetAnalysis.FormattedResult),
    SubmitAnalysis.lambda_handler env (SubmitAnalysis.Fields d) w
    = (Aws.Ret r1, w1)
    /\ statusCode r1 = 202
    /\ Aws.invoked w1 = Aws.invoked w ++ [analysis_id]
    /\ ProcessAnalysis.lambda_handler env (<["analysis_id" := analysis_id]> ∅)
         w1 = (Aws.Ret r2, w2)
    /\ statusCode r2 = 200
    /\ GetAnalysis.handle_get_results env
         (Some (<["analysis_id" := analysis_id]> ∅)) GetAnalysis.cors_headers
         w2 = (Aws.Ret r3, w3)
    /\ statusCode r3 = 200
    /\ body r3 = JObj [ ("status", JStr "completed");
                        ("results", GetAnalysis.results_json results) ]
    /\ GetAnalysis.match_score results
       = Z.min 100
           (5 * Z.of_nat (size (Spec.word_set resume_text
                                ∩ Spec.word_set job_description)))
    /\ GetAnalysis.analysis_timestamp results
       = Aws.isoformat env (Aws.time env (Aws.ticks w + 3)).
Proof.
  intros Hid Hrt Hjd Hid_ne Hrt_ne Hjd_ne [bkt Hbkt] [tbl Htbl] [fn Hfn]
    Hagent Hfault.
  destruct w as [s3 table invoked trace ticks].
  unfold SubmitAnalysis.lambda_handler, SubmitAnalysis.item,
    SubmitAnalysis.encode, SubmitAnalysis.get_estimated_completion.
  rewrite Hid, Hrt, Hjd. run. simpl.
  destruct resume_text as [|c1 rt]; [congruence|].
  destruct job_description as [|c2 jd]; [congruence|]. simpl.
  set (resume_text := String c1 rt). set (job_description := String c2 jd).
  rewrite Hbkt, Htbl, Hfn, !Hfault. simpl.
  eexists _, _, _, _, _, _, _. split; [reflexivity|].
  split; [reflexivity|]. split; [reflexivity|].
  unfold ProcessAnalysis.lambda_handler. rewrite lookup_insert_eq, Htbl.
  unfold ProcessAnalysis.process. run. simpl.
  rewrite Hbkt, !Hfault. simpl.
  rewrite (lookup_insert_ne _ (ProcessAnalysis.jd_key analysis_id))
    by apply not_eq_sym, resume_key_jd_key.
  rewrite !lookup_insert_eq. simpl. rewrite !Hfault. simpl.
  rewrite Hagent. simpl. rewrite !Hfault. simpl.
  split; [reflexivity|]. split; [reflexivity|].
  unfold GetAnalysis.handle_get_results. rewrite lookup_insert_eq.
  destruct analysis_id as [|c0 id]; [congruence|].
  set (analysis_id := String c0 id).
  run. simpl. rewrite Htbl, !Hfault. simpl.
  rewrite !lookup_insert_eq. simpl.
  split; [reflexivity|]. split; [reflexivity|]. split; [reflexivity|].
  simpl. split.
  - unfold ProcessAnalysis.score, ProcessAnalysis.common.
    rewrite !words_word_set. f_equal. lia.
  - repeat f_equal. lia.
Qed.

Lemma submit_process_retrieve_witness :
  exists (r1 r2 r3 : Response) (w1 w2 w3 : Aws.World)
         (results : GetAnalysis.FormattedResult),
    SubmitAnalysis.lambda_handler Sample.env
      (SubmitAnalysis.Fields Scenario.body_complete) Sample.empty_world
    = (Aws.Ret r1, w1)
    /\ ProcessAnalysis.lambda_handler Sample.env Sample.event w1
       = (Aws.Ret r2, w2)
    /\ GetAnalysis.handle_get_results Sample.env (Some Sample.event)
         GetAnalysis.cors_headers w2 = (Aws.Ret r3, w3)
    /\ body r3 = JObj [ ("status", JStr "completed");
                        ("results", GetAnalysis.results_json results) ]
    /\ GetAnalysis.match_score results = 15.
Proof.
  destruct (submit_process_retrieve Sample.env Scenario.body_complete "a1"
              "Python AWS microservices experience"
              "Python AWS microservices required" Sample.empty_world)
    as (r1 & r2 & r3 & w1 & w2 & w3 & results & H1 & _ & _ & H2 & _ & H3 & _
        & Hbody & Hscore & _).
  - vm_compute. reflexivity.
  - vm_compute. reflexivity.
  - vm_compute. reflexivity.
  - discriminate.
  - discriminate.
  - discriminate.
  - eexists. vm_compute. reflexivity.
  - eexists. vm_compute. reflexivity.
  - eexists. vm_compute. reflexivity.
  - vm_compute. reflexivity.
  - intros n. reflexivity.
  - exists r1, r2, r3, w1, w2, w3, results.
    split; [exact H1|]. split; [exact H2|]. split; [exact H3|].
    split; [exact Hbody|]. rewrite Hscore. vm_compute. reflexivity.
Defined.

(** X17: a run that failed for a missing document is then reported by the
    retrieval handler as failed, with the reason and the time of the
    failure. *)
Theorem process_failure_then_retrieve (env : Aws.Env)
    (analysis_id : string) (w : Aws.World) :
  analysis_id <> EmptyString ->
  is_Some (Aws.environ env !! "TRACKING_TABLE") ->
  is_Some (Aws.environ env !! "RAW_INPUTS_BUCKET") ->
  Aws.s3 w !! ProcessAnalysis.resume_key analysis_id = None ->
  (forall n : nat, Aws.fault env n = None) ->
  exists (r1 r2 : Response) (w1 w2 : Aws.World) (reason : string),
    ProcessAnalysis.lambda_handler env (<["analysis_id" := analysis_id]> ∅) w
    = (Aws.Ret r1, w1)
    /\ statusCode r1 = 500
    /\ GetAnalysis.handle_get_results env
         (Some (<["analysis_id" := analysis_id]> ∅)) GetAnalysis.cors_headers
         w1 = (Aws.Ret r2, w2)
    /\ statusCode r2 = 200
    /\ body r2
       = JObj [ ("status", JStr "failed");
                ("error",
                 JStr ("Failed to retrieve input files: " +:+ reason));
                ("timestamp",
                 JStr (Aws.isoformat env (Aws.time env (S (Aws.ticks w))))) ].
Proof.
  intros Hne [tbl Htbl] [bkt Hbkt] Hmissing Hfault.
  destruct w as [s3 table invoked trace ticks]. simpl in Hmissing |- *.
  unfold ProcessAnalysis.lambda_handler. rewrite lookup_insert_eq, Htbl.
  unfold ProcessAnalysis.process, ProcessAnalysis.fail.
  run. rewrite Hbkt. simpl. rewrite !Hfault. simpl.
  rewrite Hmissing. simpl. rewrite !Hfault. simpl.
  eexists _, _, _, _, _. split; [reflexivity|]. split; [reflexivity|].
  unfold GetAnalysis.handle_get_results. rewrite lookup_insert_eq.
  destruct analysis_id as [|c0 id]; [congruence|].
  run. simpl. rewrite Htbl, !Hfault. simpl.
  rewrite !lookup_insert_eq. simpl.
  split; [reflexivity|]. split; reflexivity.
Qed.

Lemma process_failure_then_retrieve_witness :
  exists (r1 r2 : Response) (w1 w2 : Aws.World),
    ProcessAnalysis.lambda_handler Sample.env Sample.event Sample.empty_world
    = (Aws.Ret r1, w1)
    /\ GetAnalysis.handle_get_results Sample.env (Some Sample.event)
         GetAnalysis.cors_headers w1 = (Aws.Ret r2, w2)
    /\ statusCode r2 = 200.
Proof.
  destruct (process_failure_then_retrieve Sample.env "a1" Sample.empty_world)
    as (r1 & r2 & w1 & w2 & reason & H1 & _ & H2 & H3 & _).
  - discriminate.
  - eexists. vm_compute. reflexivity.
  - eexists. vm_compute. reflexivity.
  - vm_compute. reflexivity.
  - intros n. reflexivity.
  - exists r1, r2, w1, w2. split; [exact H1|]. split; [exact H2|exact H3].
Defined.

(** ** The retrieval handler and the routes *)

Ltac get_cases :=
  repeat match goal with
    | |- context [match ?x with _ => _ end] =>
        match type of x with
        | option _ => destruct x eqn:?
        | bool => destruct x eqn:?
        | string => destruct x eqn:?
        end; simpl
    | |- context [if ?x then _ else _] => destruct x eqn:?; simpl
    end.

(** X18: the retrieval handler always returns a response, with status 200,
    400, 404 or 500, and writes nothing. *)
Theorem handle_get_results_read_only (env : Aws.Env)
    (pathParameters : option (gmap string string))
    (hdrs : list (string * string)) (w : Aws.World) :
  exists (r : Response) (w' : Aws.World),
    GetAnalysis.handle_get_results env pathParameters hdrs w
    = (Aws.Ret r, w')
    /\ statusCode r ∈ [200; 400; 404; 500]
    /\ headers r = hdrs
    /\ Aws.s3 w' = Aws.s3 w
    /\ Aws.table w' = Aws.table w
    /\ Aws.invoked w' = Aws.invoked w.
Proof.
  destruct w as [s3 table invoked trace ticks].
  unfold GetAnalysis.handle_get_results, GetAnalysis.respond.
  run. simpl. get_cases;
    (eexists _, _; split; [reflexivity|]); simpl;
    (split; [repeat constructor|]); auto.
Qed.

(** X19: a retrieval request without an analysis id, or with an empty one, is
    answered with status 400 without any call to the table. *)
Theorem handle_get_results_missing_id (env : Aws.Env)
    (pathParameters : option (gmap string string))
    (hdrs : list (string * string)) (w : Aws.World) :
  pathParameters ≫= (.!! "analysis_id") = None
  \/ pathParameters ≫= (.!! "analysis_id") = Some EmptyString ->
  GetAnalysis.handle_get_results env pathParameters hdrs w
  = (Aws.Ret (mkResponse 400 hdrs
                (JObj [("error", JStr "analysis_id is required")])), w).
Proof.
  unfold GetAnalysis.handle_get_results. run.
  destruct pathParameters as [pp|]; simpl.
  - intros [->| ->]; reflexivity.
  - intros _. reflexivity.
Qed.

Lemma handle_get_results_missing_id_witness :
  GetAnalysis.handle_get_results Sample.env (Some ∅) GetAnalysis.cors_headers
    Sample.completed
  = (Aws.Ret (mkResponse 400 GetAnalysis.cors_headers
                (JObj [("error", JStr "analysis_id is required")])),
     Sample.completed).
Proof.
  apply handle_get_results_missing_id. left. reflexivity.
Defined.

(** X20: when the table is not configured, or the read of the record fails
    with error [e], a retrieval request with an analysis id is answered
    with status 500 and the error after the words
    [Failed to retrieve analysis]. *)
Theorem handle_get_results_failure (env : Aws.Env)
    (path_parameters : gmap string string) (analysis_id : string)
    (hdrs : list (string * string)) (w : Aws.World) :
  path_parameters !! "analysis_id" = Some analysis_id ->
  analysis_id <> EmptyString ->
  (Aws.environ env !! "TRACKING_TABLE" = None ->
   GetAnalysis.handle_get_results env (Some path_parameters) hdrs w
   = (Aws.Ret (mkResponse 500 hdrs
                 (JObj [("error",
                         JStr "Failed to retrieve analysis: 'TRACKING_TABLE'")])),
      w))
  /\ (forall e : string,
        is_Some (Aws.environ env !! "TRACKING_TABLE") ->
        Aws.fault env (length (Aws.trace w)) = Some e ->
        exists w' : Aws.World,
          GetAnalysis.handle_get_results env (Some path_parameters) hdrs w
          = (Aws.Ret (mkResponse 500 hdrs
                        (JObj [("error",
                                JStr ("Failed to retrieve analysis: "
                                      +:+ e))])), w')
          /\ Aws.trace w' = Aws.trace w ++ [Aws.GetItem analysis_id]).
Proof.
  intros Hid Hne. unfold GetAnalysis.handle_get_results. rewrite Hid.
  destruct analysis_id as [|c id]; [congruence|].
  destruct w as [s3 table invoked trace ticks]. run. simpl. split.
  - intros ->. reflexivity.
  - intros e [tbl ->] ->. eexists. split; reflexivity.
Qed.

Lemma handle_get_results_failure_witness :
  exists w' : Aws.World,
    GetAnalysis.handle_get_results Sample.env_first_call_fails
      (Some Sample.event) GetAnalysis.cors_headers Sample.completed
    = (Aws.Ret (mkResponse 500 GetAnalysis.cors_headers
                  (JObj [("error",
                          JStr "Failed to retrieve analysis: ThrottlingException")])),
       w').
Proof.
  destruct (handle_get_results_failure Sample.env_first_call_fails
              Sample.event "a1" GetAnalysis.cors_headers Sample.completed)
    as [_ H].
  - vm_compute. reflexivity.
  - discriminate.
  - destruct (H "ThrottlingException") as (w' & Hrun & _).
    + eexists. vm_compute. reflexivity.
    + reflexivity.
    + exists w'. exact Hrun.
Defined.

(** ** The health check *)

Ltac health_cases env probes :=
  unfold GetAnalysisApi.perform_health_checks, GetAnalysisApi.probe,
    GetAnalysisApi.missing_vars, GetAnalysisApi.required_env_vars;
  rewrite ?filter_cons, ?filter_nil;
  destruct (Aws.environ env !! "TRACKING_TABLE") as [[|? tb]|] eqn:?;
  destruct (Aws.environ env !! "RAW_INPUTS_BUCKET") as [[|? bk]|] eqn:?;
  simpl;
  repeat match goal with
    | |- context [GetAnalysisApi.describe_table probes ?x] =>
        destruct (GetAnalysisApi.describe_table probes x) eqn:?; simpl
    | |- context [GetAnalysisApi.head_bucket probes ?x] =>
        destruct (GetAnalysisApi.head_bucket probes x) eqn:?; simpl
    | |- context [decide ?P] => destruct (decide P); simpl
    end.

(** X22: the report of the health checks has the three entries [dynamodb],
    [s3] and [environment], in this order, each healthy or unhealthy, and
    the overall verdict is healthy exactly when the three entries are. *)
Theorem perform_health_checks_consistent (env : Aws.Env)
    (probes : GetAnalysisApi.Probes) :
  (GetAnalysisApi.checks (GetAnalysisApi.perform_health_checks env probes)).*1
  = ["dynamodb"; "s3"; "environment"]
  /\ Forall (fun c => GetAnalysisApi.check_status c.2 = "healthy"
                      \/ GetAnalysisApi.check_status c.2 = "unhealthy")
       (GetAnalysisApi.checks (GetAnalysisApi.perform_health_checks env probes))
  /\ (GetAnalysisApi.healthy (GetAnalysisApi.perform_health_checks env probes)
      = true
      <-> Forall (fun c => GetAnalysisApi.check_status c.2 = "healthy")
            (GetAnalysisApi.checks
               (GetAnalysisApi.perform_health_checks env probes))).
Proof.
  health_cases env probes;
    (split; [reflexivity|]);
    (split; [rewrite !Forall_cons, Forall_nil; simpl; auto 10|]);
    rewrite !Forall_cons, Forall_nil; simpl;
    (split; [intros H; first [discriminate H|auto 10]
            |intros (H1 & H2 & H3 & _);
             first [reflexivity|discriminate H1|discriminate H2
                   |discriminate H3]]).
Qed.

(** The overall verdict is healthy exactly when the two variables are set
    to non-empty names and the two probes return. *)
Lemma perform_health_checks_healthy (env : Aws.Env)
    (probes : GetAnalysisApi.Probes) :
  GetAnalysisApi.healthy (GetAnalysisApi.perform_health_checks env probes)
  = true
  <-> exists table_name bucket_name : string,
        Aws.environ env !! "TRACKING_TABLE" = Some table_name
        /\ table_name <> EmptyString
        /\ GetAnalysisApi.describe_table probes table_name = None
        /\ Aws.environ env !! "RAW_INPUTS_BUCKET" = Some bucket_name
        /\ bucket_name <> EmptyString
        /\ GetAnalysisApi.head_bucket probes bucket_name = None.
Proof.
  health_cases env probes;
    (split;
     [intros H; first [discriminate H|eexists _, _; repeat split; eauto; discriminate]
     |intros (t & b & Ht & Htne & Hdt & Hb & Hbne & Hhb);
      first [reflexivity|congruence]]).
Qed.

(** X23: the health check always answers, with status 200 or 503, never 500,
    and writes nothing; the status is 200 exactly when the two variables
    are set to non-empty names and the two probes return. *)
Theorem handle_health_check_status (env : Aws.Env)
    (probes : GetAnalysisApi.Probes) (hdrs : list (string * string))
    (w : Aws.World) :
  exists (r : Response) (w' : Aws.World),
    GetAnalysisApi.handle_health_check env probes hdrs w = (Aws.Ret r, w')
    /\ (statusCode r = 200 \/ statusCode r = 503)
    /\ Aws.s3 w' = Aws.s3 w
    /\ Aws.table w' = Aws.table w
    /\ Aws.invoked w' = Aws.invoked w
    /\ (statusCode r = 200
        <-> exists table_name bucket_name : string,
              Aws.environ env !! "TRACKING_TABLE" = Some table_name
              /\ table_name <> EmptyString
              /\ GetAnalysisApi.describe_table probes table_name = None
              /\ Aws.environ env !! "RAW_INPUTS_BUCKET" = Some bucket_name
              /\ bucket_name <> EmptyString
              /\ GetAnalysisApi.head_bucket probes bucket_name = None).
Proof.
  destruct w as [s3 table invoked trace ticks].
  unfold GetAnalysisApi.handle_health_check. run.
  pose proof (perform_health_checks_healthy env probes) as Hh.
  destruct (GetAnalysisApi.healthy _); simpl;
    (eexists _, _; split; [reflexivity|]); simpl;
    do 4 (split; [auto|]); split; intros H.
  - apply Hh. reflexivity.
  - reflexivity.
  - discriminate H.
  - apply Hh in H. discriminate H.
Qed.

(** X21: the handler of the function answers status 404 [Route not found] to
    every request whose method is not GET and to a GET of any path other
    than the two routes, changing nothing; a GET of a path that starts with
    [/results/] is answered by the retrieval handler and a GET of [/health]
    by the health check. *)
Theorem lambda_handler_routes (env : Aws.Env)
    (probes : GetAnalysisApi.Probes) (event : GetAnalysisApi.Event)
    (w : Aws.World) :
  (GetAnalysisApi.httpMethod event <> Some "GET" ->
   GetAnalysisApi.lambda_handler env probes event w
   = (Aws.Ret (GetAnalysisApi.route_not_found GetAnalysis.cors_headers), w))
  /\ (GetAnalysisApi.httpMethod event = Some "GET" ->
      forall p : string,
        default EmptyString (GetAnalysisApi.path event) = p ->
        (String.prefix "/results/" p = true ->
         GetAnalysisApi.lambda_handler env probes event w
         = GetAnalysis.handle_get_results env
             (GetAnalysisApi.pathParameters event) GetAnalysis.cors_headers w)
        /\ (p = "/health" ->
            GetAnalysisApi.lambda_handler env probes event w
            = GetAnalysisApi.handle_health_check env probes
                GetAnalysis.cors_headers w)
        /\ (String.prefix "/results/" p = false -> p <> "/health" ->
            GetAnalysisApi.lambda_handler env probes event w
            = (Aws.Ret (GetAnalysisApi.route_not_found
                          GetAnalysis.cors_headers), w))).
Proof.
  unfold GetAnalysisApi.lambda_handler. rewrite !get_default. split.
  - intros Hm.
    destruct (String.eqb_spec
                (default EmptyString (GetAnalysisApi.httpMethod event)) "GET")
      as [E|_]; [|reflexivity].
    destruct (GetAnalysisApi.httpMethod event); simpl in E; congruence.
  - intros -> p Hp. simpl. rewrite Hp.
    split; [|split].
    + intros ->.
      destruct (handle_get_results_read_only env
                  (GetAnalysisApi.pathParameters event)
                  GetAnalysis.cors_headers w) as (r & w' & Hrun & _).
      unfold Aws.try_except. rewrite Hrun. reflexivity.
    + intros ->.
      change (String.prefix "/results/" "/health") with false.
      change (String.eqb "/health" "/health") with true. cbv iota.
      destruct (handle_health_check_status env probes
                  GetAnalysis.cors_headers w) as (r & w' & Hrun & _).
      unfold Aws.try_except. rewrite Hrun. reflexivity.
    + intros -> Hh. destruct (String.eqb_spec p "/health"); [contradiction|].
      reflexivity.
Qed.
